(** * maddy: the DNSSEC-aware resolver and the DKIM verification check

    A shallow embedding of [internal/dns/dnssec.go] (the [ExtResolver]
    wrapper around miekg/dns) and of the [verify_dkim] check
    ([dkimCheckState.CheckBody]), with the properties the specification
    states about them.

    Go values are modelled as follows.
    - [int] values (RCODEs, SMTP codes, body lengths) are [Z].
    - Pointers that the code compares with [nil] or dereferences are
      [option]; dereferencing [None] is the Go runtime panic, which the
      resolver monad carries as an outcome of its own.
    - [error] interface values are an inductive type with one constructor
      per dynamic type the code distinguishes; a nil error is [None].
    - Slices are lists; a nil slice and an empty slice are both [[]].
    - [map[string]struct{}] is a [gset string].
    - The network, the DNS client and the DKIM verifier are not part of the
      repository: they are variables of the sections below. *)

From Stdlib Require Import ZArith Ascii String List Bool Lia.
From stdpp Require Import base option gmap strings list pretty.

Open Scope string_scope.
Open Scope list_scope.
Open Scope Z_scope.

(** ** github.com/miekg/dns: the data the resolver touches *)

Module dns.

(** RCODE values (RFC 1035, section 4.1.1). *)
Definition RcodeSuccess : Z := 0.
Definition RcodeFormatError : Z := 1.
Definition RcodeServerFailure : Z := 2.
Definition RcodeNameError : Z := 3.
Definition RcodeNotImplemented : Z := 4.
Definition RcodeRefused : Z := 5.

(** Record types (RFC 1035, 3596, 6698, 6891). *)
Definition TypeA : Z := 1.
Definition TypePTR : Z := 12.
Definition TypeMX : Z := 15.
Definition TypeTXT : Z := 16.
Definition TypeAAAA : Z := 28.
Definition TypeTLSA : Z := 52.
Definition ClassINET : Z := 1.

(** [net.IP] is a byte slice. *)
Definition IP := list Byte.byte.

Record TLSA := {
  Usage : Z;
  Selector : Z;
  MatchingType : Z;
  Certificate : string
}.

(** A resource record, by dynamic type.  [RR_OPT] is the EDNS0
    pseudo-record; [RR_Other] stands for every type the resolver never
    asks about. *)
Inductive RR :=
| RR_PTR (Ptr : string)
| RR_MX (Preference : Z) (Mx : string)
| RR_TXT (Txt : list string)
| RR_A (A : IP)
| RR_AAAA (AAAA : IP)
| RR_TLSA (rr : TLSA)
| RR_OPT (udpsize : Z) (do : bool)
| RR_Other (rrtype : Z).

Record Question := {
  Name : string;
  Qtype : Z;
  Qclass : Z
}.

(** [dns.Msg], without the transaction identifier (chosen at random by
    [SetQuestion]) and the header bits the resolver never looks at. *)
Record Msg := {
  Rcode : Z;
  RecursionDesired : bool;
  AuthenticatedData : bool;
  Questions : list Question;
  Answer : list RR;
  Extra : list RR
}.

(** [new(dns.Msg)] *)
Definition new_Msg : Msg :=
  {| Rcode := 0; RecursionDesired := false; AuthenticatedData := false;
     Questions := []; Answer := []; Extra := [] |}.

(** [msg.SetQuestion(z, t)] *)
Definition SetQuestion (m : Msg) (z : string) (t : Z) : Msg :=
  {| Rcode := Rcode m; RecursionDesired := true;
     AuthenticatedData := AuthenticatedData m;
     Questions := [ {| Name := z; Qtype := t; Qclass := ClassINET |} ];
     Answer := Answer m; Extra := Extra m |}.

(** [msg.SetEdns0(udpsize, do)] *)
Definition SetEdns0 (m : Msg) (udpsize : Z) (do : bool) : Msg :=
  {| Rcode := Rcode m; RecursionDesired := RecursionDesired m;
     AuthenticatedData := AuthenticatedData m;
     Questions := Questions m; Answer := Answer m;
     Extra := Extra m ++ [RR_OPT udpsize do] |}.

(** [msg.AuthenticatedData = b] *)
Definition set_AuthenticatedData (m : Msg) (b : bool) : Msg :=
  {| Rcode := Rcode m; RecursionDesired := RecursionDesired m;
     AuthenticatedData := b;
     Questions := Questions m; Answer := Answer m; Extra := Extra m |}.

Record ClientConfig := {
  Servers : list string;
  Port : string;
  Timeout : Z
}.

End dns.

(** ** internal/dns/dnssec.go *)

Module dnssec.

(** *** Errors *)

(** [*net.DNSError]: only the field [IsNotFound] inspects. *)
Record net_DNSError := {
  DNSError_Err : string;
  DNSError_IsNotFound : bool
}.

(** [RCodeError] is returned by [ExtResolver] when the RCODE in response
    is not NOERROR. *)
Record RCodeError := {
  Name : string;
  Code : Z
}.

(** The dynamic types an [error] handled by this package can have. *)
Inductive error :=
| ErrDNS (e : net_DNSError)        (* net.DNSError, by pointer *)
| ErrRCode (e : RCodeError)        (* RCodeError *)
| ErrCanceled                      (* context.Canceled *)
| ErrDeadlineExceeded              (* context.DeadlineExceeded *)
| ErrOther (msg : string).         (* any other error value *)

Definition RCodeError_Temporary (err : RCodeError) : bool :=
  Code err =? dns.RcodeServerFailure.

Definition RCodeError_Error (err : RCodeError) : string :=
  if Code err =? dns.RcodeFormatError then
    "dns: rcode FORMERR when looking up " +:+ Name err
  else if Code err =? dns.RcodeServerFailure then
    "dns: rcode SERVFAIL when looking up " +:+ Name err
  else if Code err =? dns.RcodeNameError then
    "dns: rcode NXDOMAIN when looking up " +:+ Name err
  else if Code err =? dns.RcodeNotImplemented then
    "dns: rcode NOTIMP when looking up " +:+ Name err
  else if Code err =? dns.RcodeRefused then
    "dns: rcode REFUSED when looking up " +:+ Name err
  else
    "dns: non-success rcode: " +:+ pretty (Code err)
      +:+ " when looking up " +:+ Name err.

Definition IsNotFound (err : option error) : bool :=
  match err with
  | Some (ErrDNS dnsErr) => DNSError_IsNotFound dnsErr
  | Some (ErrRCode rcodeErr) => Code rcodeErr =? dns.RcodeNameError
  | _ => false
  end.

(** *** What the package takes from outside the repository *)

(** Pure functions of the Go standard library and of miekg/dns. *)
Class Lib := {
  (** [net.ParseIP]: [None] is the nil [IP] of an unparsable address. *)
  net_ParseIP : string -> option dns.IP;
  (** [net.IP.IsLoopback] *)
  IP_IsLoopback : dns.IP -> bool;
  (** [net.IPAddr.String] *)
  IPAddr_String : dns.IP -> string;
  (** [dns.ReverseAddr] *)
  dns_ReverseAddr : string -> string * option error;
  (** [dns.Fqdn] *)
  dns_Fqdn : string -> string;
  (** [dns.TLSAName domain service network] *)
  dns_TLSAName : string -> string -> string -> string * option error
}.

(** The DNS client and the network behind it.  [World] is whatever the
    answers depend on (servers, links, clocks, the state of the context);
    one exchange reads it and may change it. *)
Class Client := {
  World : Type;
  (** [context.Context] *)
  context_Context : Type;
  (** [ExchangeContext ctx msg address] of the [dns.Client], without the
      round-trip time, which the resolver drops. *)
  cl_ExchangeContext :
    context_Context -> dns.Msg -> string -> World ->
    (option dns.Msg * option error) * World
}.

(** [net.JoinHostPort]: a host with a colon is taken to be an IPv6
    literal and bracketed. *)
Fixpoint has_colon (s : string) : bool :=
  match s with
  | EmptyString => false
  | String c s' => if Ascii.eqb c ":"%char then true else has_colon s'
  end.

Definition net_JoinHostPort (host port : string) : string :=
  if has_colon host then "[" +:+ host +:+ "]:" +:+ port
  else host +:+ ":" +:+ port.

(** *** The monad of resolver code

    A computation reads and changes the world through the client, logs
    every exchange it starts, and either returns or panics. *)

Inductive panic :=
| NilPointerDereference
| IndexOutOfRange.

Inductive outcome (A : Type) :=
| Returned (a : A)
| Panicked (p : panic).
Arguments Returned {A} a.
Arguments Panicked {A} p.

(** One call of [ExchangeContext]: the query and the address. *)
Record Call := {
  call_msg : dns.Msg;
  call_addr : string
}.

Record State `{Client} := {
  world : World;
  calls : list Call
}.

Definition Go `{Client} (A : Type) : Type := State -> outcome A * State.

#[export] Instance Go_ret `{Client} : MRet Go :=
  fun A a s => (Returned a, s).

#[export] Instance Go_bind `{Client} : MBind Go :=
  fun A B f m s =>
    match m s with
    | (Returned a, s') => f a s'
    | (Panicked p, s') => (Panicked p, s')
    end.

(** [e.cl.ExchangeContext(ctx, msg, address)] *)
Definition ExchangeContext `{Client} (ctx : context_Context) (msg : dns.Msg)
    (address : string) : Go (option dns.Msg * option error) :=
  fun s =>
    let '(r, w) := cl_ExchangeContext ctx msg address (world s) in
    (Returned r,
     {| world := w;
        calls := calls s ++ [ {| call_msg := msg; call_addr := address |} ] |}).

(** Dereferencing a pointer [p], as [p.field] does. *)
Definition deref `{Client} {A : Type} (p : option A) : Go A :=
  match p with
  | Some a => mret a
  | None => fun s => (Panicked NilPointerDereference, s)
  end.

(** [l[0]] *)
Definition index0 `{Client} {A : Type} (l : list A) : Go A :=
  match l with
  | a :: _ => mret a
  | [] => fun s => (Panicked IndexOutOfRange, s)
  end.

(** *** The resolver *)

(** [ExtResolver]; its client is the [Client] instance. *)
Record ExtResolver := {
  Cfg : dns.ClientConfig
}.

Definition isLoopback `{Lib} (addr : string) : bool :=
  match net_ParseIP addr with
  | None => false
  | Some ip => IP_IsLoopback ip
  end.

(** The [for _, srv := range e.Cfg.Servers] loop of [exchange], from the
    servers still to try and the current values of [resp] and [lastErr].
    A recursive call is [continue]; returning is [break] followed by the
    function's [return resp, lastErr]. *)
Fixpoint exchange_loop `{Lib} `{Client} (e : ExtResolver) (ctx : context_Context)
    (msg : dns.Msg) (servers : list string)
    (resp : option dns.Msg) (lastErr : option error)
    : Go (option dns.Msg * option error) :=
  match servers with
  | [] => mret (resp, lastErr)
  | srv :: servers' =>
      '(resp, lastErr) ←
        ExchangeContext ctx msg (net_JoinHostPort srv (dns.Port (Cfg e)));
      match lastErr with
      | Some _ => exchange_loop e ctx msg servers' resp lastErr
      | None =>
          r ← deref resp;
          if negb (dns.Rcode r =? dns.RcodeSuccess) then
            q ← index0 (dns.Questions msg);
            exchange_loop e ctx msg servers' resp
              (Some (ErrRCode {| Name := dns.Name q; Code := dns.Rcode r |}))
          else
            let resp :=
              if negb (isLoopback srv)
              then Some (dns.set_AuthenticatedData r false)
              else resp in
            mret (resp, lastErr)
      end
  end.

Definition exchange `{Lib} `{Client} (e : ExtResolver) (ctx : context_Context)
    (msg : dns.Msg) : Go (option dns.Msg * option error) :=
  exchange_loop e ctx msg (dns.Servers (Cfg e)) None None.

(** [net.MX] *)
Record net_MX := {
  Host : string;
  Pref : Z
}.

(** [net.IPAddr], without the zone, which the resolver leaves empty. *)
Record net_IPAddr := {
  IP : dns.IP
}.

Definition AuthLookupAddr `{Lib} `{Client} (e : ExtResolver) (ctx : context_Context)
    (addr : string) : Go (bool * list string * option error) :=
  let '(revAddr, err) := dns_ReverseAddr addr in
  match err with
  | Some _ => mret (false, [], err)
  | None =>
      let msg := dns.new_Msg in
      let msg := dns.SetQuestion msg revAddr dns.TypePTR in
      let msg := dns.SetEdns0 msg 4096 false in
      let msg := dns.set_AuthenticatedData msg true in
      '(resp, err) ← exchange e ctx msg;
      match err with
      | Some _ => mret (false, [], err)
      | None =>
          r ← deref resp;
          let ad := dns.AuthenticatedData r in
          let names :=
            fold_left
              (fun names rr =>
                 match rr with
                 | dns.RR_PTR ptr => names ++ [ptr]
                 | _ => names
                 end)
              (dns.Answer r) [] in
          mret (ad, names, err)
      end
  end.

Definition AuthLookupMX `{Lib} `{Client} (e : ExtResolver) (ctx : context_Context)
    (name : string) : Go (bool * list net_MX * option error) :=
  let msg := dns.new_Msg in
  let msg := dns.SetQuestion msg (dns_Fqdn name) dns.TypeMX in
  let msg := dns.SetEdns0 msg 4096 false in
  let msg := dns.set_AuthenticatedData msg true in
  '(resp, err) ← exchange e ctx msg;
  match err with
  | Some _ => mret (false, [], err)
  | None =>
      r ← deref resp;
      let ad := dns.AuthenticatedData r in
      let mxs :=
        fold_left
          (fun mxs rr =>
             match rr with
             | dns.RR_MX preference mx =>
                 mxs ++ [ {| Host := mx; Pref := preference |} ]
             | _ => mxs
             end)
          (dns.Answer r) [] in
      mret (ad, mxs, err)
  end.

Definition AuthLookupTXT `{Lib} `{Client} (e : ExtResolver) (ctx : context_Context)
    (name : string) : Go (bool * list string * option error) :=
  let msg := dns.new_Msg in
  let msg := dns.SetQuestion msg (dns_Fqdn name) dns.TypeTXT in
  let msg := dns.SetEdns0 msg 4096 false in
  let msg := dns.set_AuthenticatedData msg true in
  '(resp, err) ← exchange e ctx msg;
  match err with
  | Some _ => mret (false, [], err)
  | None =>
      r ← deref resp;
      let ad := dns.AuthenticatedData r in
      let recs :=
        fold_left
          (fun recs rr =>
             match rr with
             | dns.RR_TXT txt => recs ++ [String.concat "" txt]
             | _ => recs
             end)
          (dns.Answer r) [] in
      mret (ad, recs, err)
  end.

Definition AuthLookupIPAddr `{Lib} `{Client} (e : ExtResolver) (ctx : context_Context)
    (host : string) : Go (bool * list net_IPAddr * option error) :=
  (* First, query IPv6. *)
  let msg := dns.new_Msg in
  let msg := dns.SetQuestion msg (dns_Fqdn host) dns.TypeAAAA in
  let msg := dns.SetEdns0 msg 4096 false in
  let msg := dns.set_AuthenticatedData msg true in
  '(resp, err) ← exchange e ctx msg;
  match err with
  | Some _ => mret (false, [], err)
  | None =>
      r ← deref resp;
      let ad := dns.AuthenticatedData r in
      let addrs :=
        fold_left
          (fun addrs rr =>
             match rr with
             | dns.RR_AAAA aaaa => addrs ++ [ {| IP := aaaa |} ]
             | _ => addrs
             end)
          (dns.Answer r) [] in
      (* Then repeat query with IPv4. *)
      let msg := dns.new_Msg in
      let msg := dns.SetQuestion msg (dns_Fqdn host) dns.TypeA in
      let msg := dns.SetEdns0 msg 4096 false in
      let msg := dns.set_AuthenticatedData msg true in
      '(resp, err) ← exchange e ctx msg;
      match err with
      | Some _ => mret (false, [], err)
      | None =>
          r ← deref resp;
          (* Both queries should be authenticated. *)
          let ad := ad && dns.AuthenticatedData r in
          let addrs :=
            fold_left
              (fun addrs rr =>
                 match rr with
                 | dns.RR_A a => addrs ++ [ {| IP := a |} ]
                 | _ => addrs
                 end)
              (dns.Answer r) addrs in
          mret (ad, addrs, err)
      end
  end.

Definition AuthLookupHost `{Lib} `{Client} (e : ExtResolver) (ctx : context_Context)
    (host : string) : Go (bool * list string * option error) :=
  '(ad, addrParsed, err) ← AuthLookupIPAddr e ctx host;
  match err with
  | Some _ => mret (false, [], err)
  | None =>
      let addrs :=
        fold_left (fun addrs addr => addrs ++ [IPAddr_String (IP addr)])
          addrParsed [] in
      mret (ad, addrs, None)
  end.

Definition AuthLookupTLSA `{Lib} `{Client} (e : ExtResolver) (ctx : context_Context)
    (service network domain : string)
    : Go (bool * list dns.TLSA * option error) :=
  let '(name, err) := dns_TLSAName domain service network in
  match err with
  | Some _ => mret (false, [], err)
  | None =>
      let msg := dns.new_Msg in
      let msg := dns.SetQuestion msg (dns_Fqdn name) dns.TypeTLSA in
      let msg := dns.SetEdns0 msg 4096 false in
      let msg := dns.set_AuthenticatedData msg true in
      '(resp, err) ← exchange e ctx msg;
      match err with
      | Some _ => mret (false, [], err)
      | None =>
          r ← deref resp;
          let ad := dns.AuthenticatedData r in
          let recs :=
            fold_left
              (fun recs rr =>
                 match rr with
                 | dns.RR_TLSA rr => recs ++ [rr]
                 | _ => recs
                 end)
              (dns.Answer r) [] in
          mret (ad, recs, err)
      end
  end.

End dnssec.

(** ** github.com/emersion/go-msgauth: authentication results and the
    outcome of a DKIM verification *)

Module authres.

Inductive ResultValue :=
| ResultNone
| ResultPass
| ResultFail
| ResultPolicy
| ResultNeutral
| ResultTempError
| ResultPermError
| ResultHardFail
| ResultSoftFail.

Record DKIMResult := {
  Value : ResultValue;
  Reason : string;
  Domain : string;
  Identifier : string
}.

End authres.

Module dkim.

(** The errors of a verification: go-msgauth's three string-based error
    types, and any other error value (an I/O error, for one).  All three
    print as the string after the prefix. *)
Inductive error :=
| permFailError (s : string)
| tempFailError (s : string)
| failError (s : string)
| otherError (s : string).

Definition Error (err : error) : string :=
  match err with
  | permFailError s => "dkim: " +:+ s
  | tempFailError s => "dkim: " +:+ s
  | failError s => "dkim: " +:+ s
  | otherError s => s
  end.

(** [IsPermFail] and [IsTempFail] are type assertions on the error
    value; on a nil error the assertion fails. *)
Definition IsPermFail (err : option error) : bool :=
  match err with
  | Some (permFailError _) => true
  | _ => false
  end.

Definition IsTempFail (err : option error) : bool :=
  match err with
  | Some (tempFailError _) => true
  | _ => false
  end.

(** [dkim.Verification]: [BodyLength] is negative when the signature has
    no body length limit. *)
Record Verification := {
  Domain : string;
  Identifier : string;
  HeaderKeys : list string;
  BodyLength : Z;
  Err : option error
}.

End dkim.

(** ** The parts of maddy the check is written against *)

Module exterrors.

(** [exterrors.SMTPError] *)
Record SMTPError := {
  Code : Z;
  EnhancedCode : Z * Z * Z;
  Message : string;
  CheckName : string;
  Err : option dkim.error
}.

(** The error values the check puts in a result: a pointer to an
    [SMTPError], or [WithTemporary (WithFields err fields) temporary]. *)
Inductive reason :=
| SMTP (e : SMTPError)
| WithTemporary (err : dkim.error) (fields : gmap string string)
    (temporary : bool).

End exterrors.

Module maddy_module.

(** [module.CheckResult] *)
Record CheckResult := {
  Reason : option exterrors.reason;
  Reject : bool;
  Quarantine : bool;
  AuthResult : list authres.DKIMResult
}.

(** [module.CheckResult{}] *)
Definition zero : CheckResult :=
  {| Reason := None; Reject := false; Quarantine := false; AuthResult := [] |}.

End maddy_module.

Module check.

(** [check.FailAction]: the check reads its two fields. *)
Record FailAction := {
  Quarantine : bool;
  Reject : bool
}.

(** Modelled from the spec: [FailAction.Apply] of [internal/check], which
    is not among the sources.  Applying an action to a result leaves it
    as an informational record (ignore), marks it for rejection, or marks
    it for quarantine; reason and authentication results are the
    result's. *)
Definition Apply (cfa : FailAction) (originalRes : maddy_module.CheckResult)
    : maddy_module.CheckResult :=
  {| maddy_module.Reason := maddy_module.Reason originalRes;
     maddy_module.Reject := Reject cfa || maddy_module.Reject originalRes;
     maddy_module.Quarantine :=
       Quarantine cfa || maddy_module.Quarantine originalRes;
     maddy_module.AuthResult := maddy_module.AuthResult originalRes |}.

End check.

(** ** The verify_dkim check *)

Module verify_dkim.

Import authres.

(** What the check takes from outside the repository: the message header
    of go-message, the canonical form of a header field name, and the
    verifier of go-msgauth. *)
Class Lib := {
  (** [textproto.Header] *)
  Header : Type;
  (** [header.Has key] *)
  Header_Has : Header -> string -> bool;
  (** [textproto.WriteHeader]: the header block as bytes. *)
  textproto_WriteHeader : Header -> string;
  (** [nettextproto.CanonicalMIMEHeaderKey] *)
  CanonicalMIMEHeaderKey : string -> string;
  (** [dkim.Verify] on the bytes of header and body. *)
  dkim_Verify : string -> list dkim.Verification * option dkim.error
}.

(** [buffer.Buffer]: what [Open] returns, the bytes the reader delivers
    and the error. *)
Record Buffer := {
  Open : string * option dkim.error
}.

Record Check := {
  instName : string;
  requiredFields : gset string;
  allowBodySubset : bool;
  brokenSigAction : check.FailAction;
  noSigAction : check.FailAction;
  failOpen : bool
}.

(** The end of [Check.Init]: the set of required fields from the
    configured list. *)
Definition Init_requiredFields `{Lib} (requiredFields : list string)
    : gset string :=
  fold_left
    (fun m field => {[ CanonicalMIMEHeaderKey field ]} ∪ m)
    requiredFields ∅.

(** What a check does besides computing its result. *)
Inductive Event :=
| log_Printf (msg : string)
| log_Debugf (msg : string)
| log_DebugMsg (msg : string) (fields : list (string * string))
| body_Open
| Verify.

Definition Traced (A : Type) : Type := A * list Event.

#[export] Instance Traced_ret : MRet Traced := fun A a => (a, []).

#[export] Instance Traced_bind : MBind Traced :=
  fun A B f m => let '(b, t) := f (fst m) in (b, snd m ++ t).

Definition emit (ev : Event) : Traced unit := (tt, [ev]).

(** [strings.TrimPrefix] *)
Fixpoint strip_prefix (s prefix : string) : option string :=
  match prefix, s with
  | EmptyString, _ => Some s
  | String c prefix', String d s' =>
      if Ascii.eqb c d then strip_prefix s' prefix' else None
  | String _ _, EmptyString => None
  end.

Definition strings_TrimPrefix (s prefix : string) : string :=
  match strip_prefix s prefix with
  | Some s' => s'
  | None => s
  end.

Definition CheckConnection : maddy_module.CheckResult := maddy_module.zero.
Definition CheckSender (mailFrom : string) : maddy_module.CheckResult :=
  maddy_module.zero.
Definition CheckRcpt (rcptTo : string) : maddy_module.CheckResult :=
  maddy_module.zero.

(** [res.AuthResult = append(res.AuthResult, r)] *)
Definition append_AuthResult (res : maddy_module.CheckResult)
    (r : DKIMResult) : maddy_module.CheckResult :=
  {| maddy_module.Reason := maddy_module.Reason res;
     maddy_module.Reject := maddy_module.Reject res;
     maddy_module.Quarantine := maddy_module.Quarantine res;
     maddy_module.AuthResult := maddy_module.AuthResult res ++ [r] |}.

(** [res.Reason = r] *)
Definition set_Reason (res : maddy_module.CheckResult)
    (r : exterrors.reason) : maddy_module.CheckResult :=
  {| maddy_module.Reason := Some r;
     maddy_module.Reject := maddy_module.Reject res;
     maddy_module.Quarantine := maddy_module.Quarantine res;
     maddy_module.AuthResult := maddy_module.AuthResult res |}.

(** The [for _, verif := range verifications] loop of [CheckBody], from
    the verifications still to classify and the current values of
    [goodSigs] and [res].  [err] is the variable of the enclosing
    function, last assigned by [dkim.Verify].  [inl] is a [return] from
    inside the loop, [inr] the state the loop ends in. *)
Fixpoint CheckBody_loop `{Lib} (c : Check) (err : option dkim.error)
    (verifications : list dkim.Verification)
    (goodSigs : bool) (res : maddy_module.CheckResult)
    : Traced (maddy_module.CheckResult + bool * maddy_module.CheckResult) :=
  match verifications with
  | [] => mret (inr (goodSigs, res))
  | verif :: verifications' =>
      let val := ResultPass in
      let reason := "" in
      match dkim.Err verif with
      | Some verif_Err =>
          let val := ResultFail in
          let reason := strings_TrimPrefix (dkim.Error verif_Err) "dkim: " in
          _ ← (if negb (check.Reject (brokenSigAction c))
                  || negb (check.Quarantine (brokenSigAction c))
               then emit (log_DebugMsg "bad signature"
                            [("domain", dkim.Domain verif);
                             ("identifier", dkim.Identifier verif)])
               else mret tt);
          let val := if dkim.IsPermFail err then ResultPermError else val in
          if dkim.IsTempFail err then
            if negb (failOpen c) then
              mret (inl
                {| maddy_module.Reason := Some (exterrors.SMTP
                     {| exterrors.Code := 421;
                        exterrors.EnhancedCode := (4, 7, 20);
                        exterrors.Message :=
                          "Temporary error during DKIM verification";
                        exterrors.CheckName := "verify_dkim";
                        exterrors.Err := err |});
                   maddy_module.Reject := true;
                   maddy_module.Quarantine := false;
                   maddy_module.AuthResult := [] |})
            else
              let val := ResultTempError in
              CheckBody_loop c err verifications' goodSigs
                (append_AuthResult res
                   {| Value := val; Reason := reason;
                      Domain := dkim.Domain verif;
                      Identifier := dkim.Identifier verif |})
          else
            CheckBody_loop c err verifications' goodSigs
              (append_AuthResult res
                 {| Value := val; Reason := reason;
                    Domain := dkim.Domain verif;
                    Identifier := dkim.Identifier verif |})
      | None =>
          let goodSigs := true in
          _ ← emit (log_DebugMsg "good signature"
                      [("domain", dkim.Domain verif);
                       ("identifier", dkim.Identifier verif)]);
          let signedFields : gset string :=
            fold_left
              (fun m field => {[ CanonicalMIMEHeaderKey field ]} ∪ m)
              (dkim.HeaderKeys verif) ∅ in
          let '(val, reason) :=
            set_fold
              (fun field '(val, reason) =>
                 if decide (field ∈ signedFields) then (val, reason)
                 else (ResultPermError, "some header fields are not signed"))
              (val, reason) (requiredFields c) in
          let '(val, reason) :=
            if (0 <=? dkim.BodyLength verif) && negb (allowBodySubset c)
            then (ResultPermError, "body limit it used")
            else (val, reason) in
          CheckBody_loop c err verifications' goodSigs
            (append_AuthResult res
               {| Value := val; Reason := reason;
                  Domain := dkim.Domain verif;
                  Identifier := dkim.Identifier verif |})
      end
  end.

Definition CheckBody `{Lib} (c : Check) (header : Header) (body : Buffer)
    : Traced maddy_module.CheckResult :=
  if negb (Header_Has header "DKIM-Signature") then
    _ ← (if check.Reject (noSigAction c) || check.Quarantine (noSigAction c)
         then emit (log_Printf "no signatures present")
         else emit (log_Debugf "no signatures present"));
    mret (check.Apply (noSigAction c)
      {| maddy_module.Reason := Some (exterrors.SMTP
           {| exterrors.Code := 550;
              exterrors.EnhancedCode := (5, 7, 20);
              exterrors.Message := "No DKIM signatures";
              exterrors.CheckName := "verify_dkim";
              exterrors.Err := None |});
         maddy_module.Reject := false;
         maddy_module.Quarantine := false;
         maddy_module.AuthResult :=
           [ {| Value := ResultNone; Reason := "";
                Domain := ""; Identifier := "" |} ] |})
  else
    let b := textproto_WriteHeader header in
    '(bodyRdr, err) ← (_ ← emit body_Open; mret (Open body));
    match err with
    | Some e =>
        mret
          {| maddy_module.Reason := Some (exterrors.WithTemporary e
               (list_to_map [("check", "verify_dkim");
                             ("smtp_msg", "Internal I/O error")])
               true);
             maddy_module.Reject := true;
             maddy_module.Quarantine := false;
             maddy_module.AuthResult := [] |}
    | None =>
        '(verifications, err) ←
          (_ ← emit Verify; mret (dkim_Verify (b +:+ bodyRdr)));
        match err with
        | Some e =>
            mret
              {| maddy_module.Reason := Some (exterrors.WithTemporary e
                   (list_to_map
                      [("check", "verify_dkim");
                       ("smtp_msg", "Internal error during policy check")])
                   true);
                 maddy_module.Reject := true;
                 maddy_module.Quarantine := false;
                 maddy_module.AuthResult := [] |}
        | None =>
            let goodSigs := false in
            let res := maddy_module.zero in
            r ← CheckBody_loop c err verifications goodSigs res;
            match r with
            | inl early => mret early
            | inr (goodSigs, res) =>
                if negb goodSigs then
                  let res := set_Reason res (exterrors.SMTP
                    {| exterrors.Code := 550;
                       exterrors.EnhancedCode := (5, 7, 20);
                       exterrors.Message := "No passing DKIM signatures";
                       exterrors.CheckName := "verify_dkim";
                       exterrors.Err := None |}) in
                  mret (check.Apply (brokenSigAction c) res)
                else mret res
            end
        end
    end.

End verify_dkim.

(** ** Vocabulary for the properties of the resolver *)

Module resolver_run.

Import dnssec.

(** The address [exchange] hands to the client for a configured server,
    and the call it logs. *)
Definition address (e : ExtResolver) (srv : string) : string :=
  net_JoinHostPort srv (dns.Port (Cfg e)).

Definition call (e : ExtResolver) (msg : dns.Msg) (srv : string) : Call :=
  {| call_msg := msg; call_addr := address e srv |}.

(** The state after one more exchange that left the world [w]. *)
Definition logged `{Client} (e : ExtResolver) (msg : dns.Msg) (srv : string)
    (w : World) (s : State) : State :=
  {| world := w; calls := calls s ++ [call e msg srv] |}.

(** One server asked: what the client returned and the world it left. *)
Record Attempt `{Client} := {
  server : string;
  answer : option dns.Msg * option error;
  after : World
}.

(** The servers asked in turn, from the world [w], each in the world the
    one before it left. *)
Fixpoint attempts `{Client} (e : ExtResolver) (ctx : context_Context)
    (msg : dns.Msg) (servers : list string) (w : World) : list Attempt :=
  match servers with
  | [] => []
  | srv :: servers' =>
      let '(a, w') := cl_ExchangeContext ctx msg (address e srv) w in
      {| server := srv; answer := a; after := w' |}
        :: attempts e ctx msg servers' w'
  end.

(** An answer with no error and the RCODE of success. *)
Definition succeeded `{Client} (a : Attempt) : bool :=
  match answer a with
  | (Some r, None) => dns.Rcode r =? dns.RcodeSuccess
  | _ => false
  end.

(** The error an answer that did not succeed stands for: the client's
    own, or the [RCodeError] of the response for the queried name. *)
Definition recorded_error `{Client} (q : dns.Question) (a : Attempt)
    : option error :=
  match answer a with
  | (_, Some err) => Some err
  | (Some r, None) =>
      if dns.Rcode r =? dns.RcodeSuccess then None
      else Some (ErrRCode {| Name := dns.Name q; Code := dns.Rcode r |})
  | (None, None) => None
  end.

(** The trust rule: the response as reported for the server it came
    from. *)
Definition reported `{Lib} (srv : string) (r : dns.Msg) : dns.Msg :=
  if isLoopback srv then r else dns.set_AuthenticatedData r false.

(** The contract of the DNS client: it returns a response or an error. *)
Definition answers_or_fails `{Client} : Prop :=
  forall ctx msg addr w,
    fst (cl_ExchangeContext ctx msg addr w) <> (None, None).

(** The query every lookup builds for a name and a record type. *)
Definition query (name : string) (t : Z) : dns.Msg :=
  dns.set_AuthenticatedData
    (dns.SetEdns0 (dns.SetQuestion dns.new_Msg name t) 4096 false) true.

(** The answer records of one type, in order. *)
Definition records_PTR (answer : list dns.RR) : list string :=
  omap (fun rr => match rr with dns.RR_PTR ptr => Some ptr | _ => None end)
    answer.

Definition records_MX (answer : list dns.RR) : list net_MX :=
  omap (fun rr =>
          match rr with
          | dns.RR_MX preference mx =>
              Some {| Host := mx; Pref := preference |}
          | _ => None
          end)
    answer.

Definition records_TXT (answer : list dns.RR) : list string :=
  omap (fun rr =>
          match rr with
          | dns.RR_TXT txt => Some (String.concat "" txt)
          | _ => None
          end)
    answer.

Definition records_AAAA (answer : list dns.RR) : list net_IPAddr :=
  omap (fun rr =>
          match rr with
          | dns.RR_AAAA aaaa => Some {| IP := aaaa |}
          | _ => None
          end)
    answer.

Definition records_A (answer : list dns.RR) : list net_IPAddr :=
  omap (fun rr =>
          match rr with
          | dns.RR_A a => Some {| IP := a |}
          | _ => None
          end)
    answer.

Definition records_TLSA (answer : list dns.RR) : list dns.TLSA :=
  omap (fun rr => match rr with dns.RR_TLSA rr => Some rr | _ => None end)
    answer.

(** What a lookup makes of the result of its one exchange: the error
    with a false flag and no records, or the flag of the response and
    its records of the type asked for. *)
Definition single_query `{Client} {R : Type}
    (records : list dns.RR -> list R)
    (x : outcome (option dns.Msg * option error) * State)
    : outcome (bool * list R * option error) * State :=
  match x with
  | (Returned (_, Some err), s') => (Returned (false, [], Some err), s')
  | (Returned (Some r, None), s') =>
      (Returned (dns.AuthenticatedData r, records (dns.Answer r), None), s')
  | (Returned (None, None), s') => (Panicked NilPointerDereference, s')
  | (Panicked p, s') => (Panicked p, s')
  end.

(** What the combined address lookup makes of its two legs, the second
    run from the state the first left: the first error, or both flags
    and both lists of records together. *)
Definition both_legs `{Client} {R : Type}
    (leg1 : outcome (bool * list R * option error) * State)
    (leg2 : State -> outcome (bool * list R * option error) * State)
    : outcome (bool * list R * option error) * State :=
  match leg1 with
  | (Returned (_, _, Some err), s1) => (Returned (false, [], Some err), s1)
  | (Returned (ad1, recs1, None), s1) =>
      match leg2 s1 with
      | (Returned (_, _, Some err), s2) =>
          (Returned (false, [], Some err), s2)
      | (Returned (ad2, recs2, None), s2) =>
          (Returned (ad1 && ad2, recs1 ++ recs2, None), s2)
      | (Panicked p, s2) => (Panicked p, s2)
      end
  | (Panicked p, s1) => (Panicked p, s1)
  end.

(** A computation that returns from a state, as opposed to one that
    panics. *)
Definition returns `{Client} {A : Type} (x : outcome A * State) : Prop :=
  exists v : A, fst x = Returned v.

(** C8 in the words of the spec: a cancellation error from the exchange
    with a server ends the loop there, with that error, and no other
    server is asked. *)
Definition cancellation_stops_failover `{Lib} `{Client} (e : ExtResolver)
    (ctx : context_Context) : Prop :=
  forall (msg : dns.Msg) (srv : string) (rest : list string)
         (resp0 : option dns.Msg) (err0 : option error) (s : State)
         (r : option dns.Msg) (w : World),
    cl_ExchangeContext ctx msg (address e srv) (world s)
      = ((r, Some ErrCanceled), w) ->
    exchange_loop e ctx msg (srv :: rest) resp0 err0 s
    = (Returned (r, Some ErrCanceled), logged e msg srv w s).

End resolver_run.

(** ** A small network to run the resolver on

    One resolver on the local host and one across the network, both
    answering with the AD flag set; a server that is down, one that
    answers SERVFAIL, and one during whose exchange the caller cancels
    the context. *)

Module example.

Import dnssec resolver_run.

Definition ip4 (a b c d : Byte.byte) : dns.IP := [a; b; c; d].

(** [net.ParseIP] on the addresses of this network. *)
Definition ParseIP (s : string) : option dns.IP :=
  if String.eqb s "127.0.0.1" then Some (ip4 Byte.x7f Byte.x00 Byte.x00 Byte.x01)
  else if String.eqb s "192.0.2.53" then
    Some (ip4 Byte.xc0 Byte.x00 Byte.x02 Byte.x35)
  else if String.eqb s "192.0.2.1" then
    Some (ip4 Byte.xc0 Byte.x00 Byte.x02 Byte.x01)
  else if String.eqb s "192.0.2.2" then
    Some (ip4 Byte.xc0 Byte.x00 Byte.x02 Byte.x02)
  else if String.eqb s "192.0.2.9" then
    Some (ip4 Byte.xc0 Byte.x00 Byte.x02 Byte.x09)
  else None.

(** [IsLoopback] of a four-byte address: the first byte is 127. *)
Definition IsLoopback (ip : dns.IP) : bool :=
  match ip with
  | [a; _; _; _] => Byte.eqb a Byte.x7f
  | _ => false
  end.

Definition IP_String (ip : dns.IP) : string :=
  String.concat "." (map (fun b => pretty (Byte.to_N b)) ip).

Definition ends_with_dot (s : string) : bool :=
  match String.get (String.length s - 1) s with
  | Some c => Ascii.eqb c "."%char
  | None => false
  end.

Definition Fqdn (s : string) : string :=
  if ends_with_dot s then s else s +:+ ".".

Definition ReverseAddr (addr : string) : string * option error :=
  if String.eqb addr "127.0.0.1" then ("1.0.0.127.in-addr.arpa.", None)
  else if String.eqb addr "192.0.2.53" then ("53.2.0.192.in-addr.arpa.", None)
  else ("", Some (ErrOther ("dns: unrecognized address: " +:+ addr))).

Definition TLSAName (domain service network : string)
    : string * option error :=
  if negb (ends_with_dot domain) then
    ("", Some (ErrOther "dns: domain must be fully qualified"))
  else if String.eqb service "25" then
    ("_25._" +:+ network +:+ "." +:+ domain, None)
  else ("", Some (ErrOther ("unknown port " +:+ network +:+ "/" +:+ service))).

#[export] Instance lib : Lib := {|
  net_ParseIP := ParseIP;
  IP_IsLoopback := IsLoopback;
  IPAddr_String := IP_String;
  dns_ReverseAddr := ReverseAddr;
  dns_Fqdn := Fqdn;
  dns_TLSAName := TLSAName
|}.

(** The records the zone holds for a question, with a signature record
    the resolver does not ask for in front. *)
Definition zone (q : dns.Question) : list dns.RR :=
  let t := dns.Qtype q in
  dns.RR_Other 46 ::
  (if t =? dns.TypeAAAA then
     [dns.RR_AAAA (repeat Byte.x00 15 ++ [Byte.x0a])]
   else if t =? dns.TypeA then
     [dns.RR_A (ip4 Byte.xc0 Byte.x00 Byte.x02 Byte.x0a);
      dns.RR_A (ip4 Byte.xc0 Byte.x00 Byte.x02 Byte.x0b)]
   else if t =? dns.TypeMX then [dns.RR_MX 10 "mx.example.org."]
   else if t =? dns.TypeTXT then [dns.RR_TXT ["v=spf1 "; "-all"]]
   else if t =? dns.TypePTR then [dns.RR_PTR "localhost."]
   else if t =? dns.TypeTLSA then
     [dns.RR_TLSA {| dns.Usage := 3; dns.Selector := 1;
                     dns.MatchingType := 1; dns.Certificate := "c0ffee" |}]
   else []).

Definition reply (msg : dns.Msg) (rcode : Z) (ad : bool) : dns.Msg :=
  {| dns.Rcode := rcode; dns.RecursionDesired := dns.RecursionDesired msg;
     dns.AuthenticatedData := ad; dns.Questions := dns.Questions msg;
     dns.Answer :=
       if rcode =? dns.RcodeSuccess then flat_map zone (dns.Questions msg)
       else [];
     dns.Extra := [] |}.

(** The world is whether the context has been cancelled.  A client that
    [honours] the context fails every exchange started after that. *)
Definition ExchangeContext (honours : bool) (ctx : unit) (msg : dns.Msg)
    (addr : string) (cancelled : bool)
    : (option dns.Msg * option error) * bool :=
  if honours && cancelled then ((None, Some ErrCanceled), cancelled)
  else if String.eqb addr "192.0.2.9:53" then
    ((None, Some ErrCanceled), true)
  else if String.eqb addr "192.0.2.1:53" then
    ((None, Some (ErrOther "i/o timeout")), cancelled)
  else if String.eqb addr "192.0.2.2:53" then
    ((Some (reply msg dns.RcodeServerFailure false), None), cancelled)
  else if String.eqb addr "127.0.0.1:53" || String.eqb addr "192.0.2.53:53"
  then ((Some (reply msg dns.RcodeSuccess true), None), cancelled)
  else ((None, Some (ErrOther "no route to host")), cancelled).

Definition client (honours : bool) : Client := {|
  World := bool;
  context_Context := unit;
  cl_ExchangeContext := ExchangeContext honours
|}.

Definition resolver (servers : list string) : ExtResolver :=
  {| Cfg := {| dns.Servers := servers; dns.Port := "53"; dns.Timeout := 5 |} |}.

Definition start (honours : bool) : @State (client honours) :=
  @Build_State (client honours) false [].

End example.

(** ** Vocabulary for the properties of the check *)

Module check_run.

Import authres.

(** The result the no-signature action is applied to. *)
Definition no_signature_result : maddy_module.CheckResult :=
  {| maddy_module.Reason := Some (exterrors.SMTP
       {| exterrors.Code := 550;
          exterrors.EnhancedCode := (5, 7, 20);
          exterrors.Message := "No DKIM signatures";
          exterrors.CheckName := "verify_dkim";
          exterrors.Err := None |});
     maddy_module.Reject := false;
     maddy_module.Quarantine := false;
     maddy_module.AuthResult :=
       [ {| Value := ResultNone; Reason := "";
            Domain := ""; Identifier := "" |} ] |}.

End check_run.

(** ** Messages to run the check on *)

Module dkim_example.

Import verify_dkim.

Definition is_lower (c : ascii) : bool :=
  (97 <=? nat_of_ascii c)%nat && (nat_of_ascii c <=? 122)%nat.

Definition is_upper (c : ascii) : bool :=
  (65 <=? nat_of_ascii c)%nat && (nat_of_ascii c <=? 90)%nat.

(** The canonical form of a header field name made of letters, digits
    and hyphens: the first letter and every letter after a hyphen in
    upper case, the others in lower case. *)
Fixpoint canonical (upper : bool) (s : string) : string :=
  match s with
  | EmptyString => EmptyString
  | String c s' =>
      let c' :=
        if upper && is_lower c then ascii_of_nat (nat_of_ascii c - 32)
        else if negb upper && is_upper c then ascii_of_nat (nat_of_ascii c + 32)
        else c in
      String c' (canonical (Ascii.eqb c "-"%char) s')
  end.

Definition crlf : string :=
  String (ascii_of_nat 13) (String (ascii_of_nat 10) EmptyString).

Definition Has (h : list (string * string)) (k : string) : bool :=
  existsb (fun f => String.eqb (canonical true (fst f)) (canonical true k)) h.

Definition WriteHeader (h : list (string * string)) : string :=
  fold_right (fun f s => fst f +:+ ": " +:+ snd f +:+ crlf +:+ s) crlf h.

(** The verifier is given by what it returns for the message at hand. *)
Definition lib (verified : list dkim.Verification * option dkim.error)
    : Lib := {|
  Header := list (string * string);
  Header_Has := Has;
  textproto_WriteHeader := WriteHeader;
  CanonicalMIMEHeaderKey := canonical true;
  dkim_Verify := fun _ => verified
|}.

Definition reject : check.FailAction :=
  {| check.Quarantine := false; check.Reject := true |}.

(** The default required fields and body-subset setting, with both
    actions set to reject. *)
Definition strict (failOpen : bool) : Check :=
  {| instName := "verify_dkim";
     requiredFields := @Init_requiredFields (lib ([], None)) ["From"; "Subject"];
     allowBodySubset := false;
     brokenSigAction := reject;
     noSigAction := reject;
     failOpen := failOpen |}.

Definition unsigned : list (string * string) :=
  [("From", "alice@example.org"); ("Subject", "hello")].

Definition signed : list (string * string) :=
  ("dkim-signature", "v=1; a=rsa-sha256; d=example.org; s=mail") :: unsigned.

Definition body : Buffer := {| Open := ("Hello." +:+ crlf, None) |}.

Definition verification (keys : list string) (l : Z)
    (err : option dkim.error) : dkim.Verification :=
  {| dkim.Domain := "example.org"; dkim.Identifier := "@example.org";
     dkim.HeaderKeys := keys; dkim.BodyLength := l; dkim.Err := err |}.

End dkim_example.

(** ** internal/dns/dnssec.go: the constructor *)

Module startup.

Import dnssec.

(** What [NewExtResolver] takes from outside the repository. *)
Class Env := {
  (** [dns.ClientConfigFromFile]: what reading the file gives. *)
  dns_ClientConfigFromFile : string -> option dns.ClientConfig * option error;
  (** [net.SplitHostPort] *)
  net_SplitHostPort : string -> string * string * option error
}.

(** [time.Duration] is an [int64] count of nanoseconds; products wrap. *)
Definition int64 (z : Z) : Z := (z + 2 ^ 63) mod 2 ^ 64 - 2 ^ 63.
Definition time_Second : Z := 1000000000.

(** [net.Dialer] and [dns.Client], by the one field the constructor
    sets. *)
Record net_Dialer := {
  Dialer_Timeout : Z
}.

Record dns_Client := {
  Dialer : option net_Dialer
}.

(** How the constructor ends: with a resolver and its client, with an
    error, or in a panic. *)
Inductive built :=
| Built (cl : dns_Client) (e : ExtResolver)
| Failed (err : error)
| PanicError (err : error)
| PanicNilPointerDereference.

(** [NewExtResolver].  [overrideServ] is a variable of the package, set
    elsewhere. *)
Definition NewExtResolver `{Env} (overrideServ : string) : built :=
  let '(cfg, err) := dns_ClientConfigFromFile "/etc/resolv.conf" in
  match err with
  | Some err => Failed err
  | None =>
      let overridden : built + option dns.ClientConfig :=
        if negb (String.eqb overrideServ "")
           && negb (String.eqb overrideServ "system-default")
        then
          let '(host, port, err) := net_SplitHostPort overrideServ in
          match err with
          | Some err => inl (PanicError err)
          | None =>
              match cfg with
              | None => inl PanicNilPointerDereference
              | Some cfg =>
                  inr (Some {| dns.Servers := [host]; dns.Port := port;
                               dns.Timeout := dns.Timeout cfg |})
              end
          end
        else inr cfg in
      match overridden with
      | inl stop => stop
      | inr None => PanicNilPointerDereference
      | inr (Some cfg) =>
          let cl :=
            {| Dialer := Some
                 {| Dialer_Timeout :=
                      int64 (int64 (dns.Timeout cfg) * time_Second) |} |} in
          Built cl {| Cfg := cfg |}
      end
  end.

End startup.

(** ** A host to build the resolver on *)

Module startup_example.

Import dnssec startup.

(** A resolv.conf that names one remote server, or no server at all; an
    override splits when it is one of two addresses with a port. *)
Definition env (servers : list string) : Env := {|
  dns_ClientConfigFromFile := fun _ =>
    (Some {| dns.Servers := servers; dns.Port := "53"; dns.Timeout := 5 |},
     None);
  net_SplitHostPort := fun hostport =>
    if String.eqb hostport "127.0.0.1:5353" then ("127.0.0.1", "5353", None)
    else if String.eqb hostport "192.0.2.53:53" then ("192.0.2.53", "53", None)
    else ("", "", Some (ErrOther "missing port in address"))
|}.

End startup_example.

(** ** Vocabulary for further properties of the resolver *)

Module lookup_run.

Import dnssec resolver_run.

(** The flag a lookup reports; a lookup that panics reports nothing. *)
Definition flag `{Client} {R : Type}
    (x : outcome (bool * list R * option error) * State) : bool :=
  match fst x with
  | Returned (ad, _, _) => ad
  | Panicked _ => false
  end.

(** A lookup that returns an error returns a false flag and no records
    with it. *)
Definition error_alone `{Client} {R : Type}
    (x : outcome (bool * list R * option error) * State) : Prop :=
  match fst x with
  | Returned (ad, recs, Some _) => ad = false /\ recs = []
  | _ => True
  end.

(** The resolver with another list of servers. *)
Definition with_servers (e : ExtResolver) (servers : list string)
    : ExtResolver :=
  {| Cfg := {| dns.Servers := servers; dns.Port := dns.Port (Cfg e);
               dns.Timeout := dns.Timeout (Cfg e) |} |}.

End lookup_run.

(** ** Vocabulary for further properties of the check *)

Module verdict_run.

Import authres verify_dkim.

(** The fields a signature covers, as the loop over its header keys
    collects them. *)
Definition signedFields `{Lib} (verif : dkim.Verification) : gset string :=
  fold_left (fun (m : gset string) key => {[ CanonicalMIMEHeaderKey key ]} ∪ m)
    (dkim.HeaderKeys verif) ∅.

(** The record the loop of [CheckBody] adds for a verification when the
    error of [dkim.Verify] is nil. *)
Definition record_of `{Lib} (c : Check) (verif : dkim.Verification)
    : DKIMResult :=
  match dkim.Err verif with
  | Some verif_Err =>
      {| Value := ResultFail;
         Reason := strings_TrimPrefix (dkim.Error verif_Err) "dkim: ";
         Domain := dkim.Domain verif;
         Identifier := dkim.Identifier verif |}
  | None =>
      {| Value :=
           if (0 <=? dkim.BodyLength verif) && negb (allowBodySubset c)
           then ResultPermError
           else if decide (requiredFields c ⊆ signedFields verif)
           then ResultPass else ResultPermError;
         Reason :=
           if (0 <=? dkim.BodyLength verif) && negb (allowBodySubset c)
           then "body limit it used"
           else if decide (requiredFields c ⊆ signedFields verif)
           then "" else "some header fields are not signed";
         Domain := dkim.Domain verif;
         Identifier := dkim.Identifier verif |}
  end.

(** A result with more records. *)
Definition add_records (res : maddy_module.CheckResult)
    (rs : list DKIMResult) : maddy_module.CheckResult :=
  {| maddy_module.Reason := maddy_module.Reason res;
     maddy_module.Reject := maddy_module.Reject res;
     maddy_module.Quarantine := maddy_module.Quarantine res;
     maddy_module.AuthResult := maddy_module.AuthResult res ++ rs |}.

(** A verification without an error. *)
Definition verified (verif : dkim.Verification) : bool :=
  match dkim.Err verif with
  | None => true
  | Some _ => false
  end.

(** A verification that ends the check when it does not fail open: its
    error is a temporary failure. *)
Definition failed_temporarily (verif : dkim.Verification) : bool :=
  dkim.IsTempFail (dkim.Err verif).

(** The reason of a result without a passing signature. *)
Definition no_passing_signatures : exterrors.reason :=
  exterrors.SMTP
    {| exterrors.Code := 550;
       exterrors.EnhancedCode := (5, 7, 20);
       exterrors.Message := "No passing DKIM signatures";
       exterrors.CheckName := "verify_dkim";
       exterrors.Err := None |}.

(** An event of the log. *)
Definition is_log (ev : Event) : bool :=
  match ev with
  | log_Printf _ | log_Debugf _ | log_DebugMsg _ _ => true
  | body_Open | Verify => false
  end.

End verdict_run.

(** ** More verifications to run the check on *)

Module verdict_example.

Import dkim_example.

(** A signature whose body hash did not verify. *)
Definition failed_signature : dkim.Verification :=
  verification ["from"] (-1)
    (Some (dkim.failError "body hash did not verify")).

(** That signature, and one that verified over From, Subject and Date. *)
Definition two_signatures : list dkim.Verification :=
  [ failed_signature;
    verification ["from"; "subject"; "date"] (-1) None ].

End verdict_example.

(** ** The log of the check *)

Module verdict_log.

Import authres verify_dkim.

(** The log lines the loop of [CheckBody] writes for a verification when
    the error of [dkim.Verify] is nil. *)
Definition log_lines (c : Check) (verif : dkim.Verification) : list Event :=
  let fields := [("domain", dkim.Domain verif);
                 ("identifier", dkim.Identifier verif)] in
  match dkim.Err verif with
  | None => [log_DebugMsg "good signature" fields]
  | Some _ =>
      if check.Reject (brokenSigAction c)
         && check.Quarantine (brokenSigAction c)
      then []
      else [log_DebugMsg "bad signature" fields]
  end.

End verdict_log.

(** * Properties of the resolver *)

Section RCodeError_classification.

Import dnssec.

(** C9: [RCodeError.Temporary] is true exactly for the RCODE
    server-failure, and [IsNotFound] on an [RCodeError] is true exactly
    for the RCODE name-error; every other RCODE is permanent and is not
    a not-found condition. *)
Theorem rcode_classification (err : RCodeError) :
  RCodeError_Temporary err = bool_decide (Code err = dns.RcodeServerFailure)
  /\ IsNotFound (Some (ErrRCode err))
     = bool_decide (Code err = dns.RcodeNameError)
  /\ (RCodeError_Temporary err = true <-> Code err = 2)
  /\ (IsNotFound (Some (ErrRCode err)) = true <-> Code err = 3).
Proof.
  unfold RCodeError_Temporary, IsNotFound, dns.RcodeServerFailure,
    dns.RcodeNameError.
  repeat split; try (intros H; lia).
  - destruct (Z.eqb_spec (Code err) 2) as [E | E];
      [ rewrite bool_decide_eq_true_2 | rewrite bool_decide_eq_false_2 ];
      auto.
  - destruct (Z.eqb_spec (Code err) 3) as [E | E];
      [ rewrite bool_decide_eq_true_2 | rewrite bool_decide_eq_false_2 ];
      auto.
Qed.

End RCodeError_classification.

Section resolver_properties.

Import dnssec resolver_run.

Context `{Lib} `{Client}.
Variable e : ExtResolver.
Variable ctx : context_Context.

(** One iteration of the loop of [exchange], by what the client returns. *)
Lemma exchange_loop_step (msg : dns.Msg) (srv : string) (rest : list string)
    (resp0 : option dns.Msg) (err0 : option error) (s : State) :
  exchange_loop e ctx msg (srv :: rest) resp0 err0 s =
  let '(a, w) := cl_ExchangeContext ctx msg (address e srv) (world s) in
  let s' := logged e msg srv w s in
  match a with
  | (r, Some err) => exchange_loop e ctx msg rest r (Some err) s'
  | (Some r, None) =>
      if dns.Rcode r =? dns.RcodeSuccess
      then (Returned (Some (reported srv r), None), s')
      else
        match dns.Questions msg with
        | q :: _ =>
            exchange_loop e ctx msg rest (Some r)
              (Some (ErrRCode {| Name := dns.Name q; Code := dns.Rcode r |}))
              s'
        | [] => (Panicked IndexOutOfRange, s')
        end
  | (None, None) => (Panicked NilPointerDereference, s')
  end.
Proof.
  cbn [exchange_loop]. unfold mbind, Go_bind, ExchangeContext, address, logged, call.
  destruct (cl_ExchangeContext ctx msg _ (world s)) as [[r [err|]] w]; cbn.
  - destruct r; reflexivity.
  - destruct r as [r|]; cbn; [|reflexivity].
    unfold reported. destruct (dns.Rcode r =? dns.RcodeSuccess); cbn.
    + destruct (isLoopback srv); reflexivity.
    + destruct (dns.Questions msg); reflexivity.
Qed.


(** The exchanges a run of the loop starts are with the servers of the
    list, in the order of the list, each at most once, none skipped, and
    the first server is always asked. *)
Lemma exchange_loop_calls (msg : dns.Msg) (servers : list string) :
  forall (resp0 : option dns.Msg) (err0 : option error) (s : State),
  exists k : nat,
    (k <= length servers)%nat /\
    (servers <> [] -> (1 <= k)%nat) /\
    calls (snd (exchange_loop e ctx msg servers resp0 err0 s))
    = calls s ++ map (call e msg) (take k servers).
Proof.
  induction servers as [|srv rest IH]; intros resp0 err0 s.
  - exists 0%nat. cbn. repeat split; [lia | done | by rewrite app_nil_r].
  - rewrite exchange_loop_step.
    destruct (cl_ExchangeContext ctx msg _ (world s)) as [[r err] w].
    cbn zeta.
    assert (Hmore : forall r1 e1,
      exists k : nat, (k <= length (srv :: rest))%nat /\
        (srv :: rest <> [] -> (1 <= k)%nat) /\
        calls (snd (exchange_loop e ctx msg rest r1 e1 (logged e msg srv w s)))
        = calls s ++ map (call e msg) (take k (srv :: rest))).
    { intros r1 e1.
      destruct (IH r1 e1 (logged e msg srv w s)) as (k & Hk & _ & Hc).
      exists (S k). repeat split; [cbn; lia | lia |].
      rewrite Hc. cbn. by rewrite <- app_assoc. }
    assert (Hstop : forall o : outcome (option dns.Msg * option error),
      exists k : nat, (k <= length (srv :: rest))%nat /\
        (srv :: rest <> [] -> (1 <= k)%nat) /\
        calls (snd (o, logged e msg srv w s))
        = calls s ++ map (call e msg) (take k (srv :: rest))).
    { intros o. exists 1%nat. repeat split; [cbn; lia | lia]. }
    destruct err as [err|]; [destruct r; apply Hmore |].
    destruct r as [r|]; [| apply Hstop].
    destruct (dns.Rcode r =? dns.RcodeSuccess); [apply Hstop |].
    destruct (dns.Questions msg); [apply Hstop | apply Hmore].
Qed.

Lemma attempts_cons (msg : dns.Msg) (srv : string) (rest : list string)
    (w : World) :
  attempts e ctx msg (srv :: rest) w =
  {| server := srv;
     answer := fst (cl_ExchangeContext ctx msg (address e srv) w);
     after := snd (cl_ExchangeContext ctx msg (address e srv) w) |}
  :: attempts e ctx msg rest
       (snd (cl_ExchangeContext ctx msg (address e srv) w)).
Proof.
  cbn [attempts]. by destruct (cl_ExchangeContext ctx msg _ w) as [a w'].
Qed.

(** The loop in closed form: the result of the first server that
    succeeds, or else of the last server asked. *)
Lemma exchange_loop_closed_form (msg : dns.Msg) (q : dns.Question)
    (qs : list dns.Question) (servers : list string) :
  dns.Questions msg = q :: qs ->
  answers_or_fails ->
  forall (resp0 : option dns.Msg) (err0 : option error) (s : State),
  exchange_loop e ctx msg servers resp0 err0 s =
  match list_find (fun a => succeeded a = true)
          (attempts e ctx msg servers (world s)) with
  | Some (i, a) =>
      (Returned (reported (server a) <$> fst (answer a), None),
       {| world := after a;
          calls := calls s ++ map (call e msg) (take (S i) servers) |})
  | None =>
      match last (attempts e ctx msg servers (world s)) with
      | Some a =>
          (Returned (fst (answer a), recorded_error q a),
           {| world := after a;
              calls := calls s ++ map (call e msg) servers |})
      | None =>
          (Returned (resp0, err0),
           {| world := world s;
              calls := calls s ++ map (call e msg) servers |})
      end
  end.
Proof.
  intros Hq Hc.
  induction servers as [|srv rest IH]; intros resp0 err0 s.
  - cbn. rewrite app_nil_r. by destruct s.
  - rewrite exchange_loop_step, attempts_cons.
    pose proof (Hc ctx msg (address e srv) (world s)) as Hnn.
    destruct (cl_ExchangeContext ctx msg _ (world s)) as [[r err] w].
    cbn [fst snd] in *. cbn zeta.
    assert (Hrest : forall r1 e1,
      ~ succeeded {| server := srv; answer := (r, err); after := w |} = true ->
      (r1, e1) = (r, recorded_error q
                       {| server := srv; answer := (r, err); after := w |}) ->
      exchange_loop e ctx msg rest r1 e1 (logged e msg srv w s) =
      match list_find (fun a => succeeded a = true)
              ({| server := srv; answer := (r, err); after := w |}
               :: attempts e ctx msg rest w) with
      | Some (i, a) =>
          (Returned (reported (server a) <$> fst (answer a), None),
           {| world := after a;
              calls := calls s ++ map (call e msg) (take (S i) (srv :: rest)) |})
      | None =>
          match last ({| server := srv; answer := (r, err); after := w |}
                      :: attempts e ctx msg rest w) with
          | Some a =>
              (Returned (fst (answer a), recorded_error q a),
               {| world := after a;
                  calls := calls s ++ map (call e msg) (srv :: rest) |})
          | None =>
              (Returned (resp0, err0),
               {| world := world s;
                  calls := calls s ++ map (call e msg) (srv :: rest) |})
          end
      end).
    { intros r1 e1 Hns Hre. rewrite IH. cbn [list_find].
      rewrite decide_False by exact Hns.
      change (world (logged e msg srv w s)) with w.
      change (calls (logged e msg srv w s)) with (calls s ++ [call e msg srv]).
      destruct (list_find _ (attempts e ctx msg rest w)) as [[i a]|]; cbn.
      - by rewrite <- app_assoc.
      - rewrite last_cons.
        destruct (last (attempts e ctx msg rest w)) as [a|]; cbn.
        + by rewrite <- app_assoc.
        + rewrite <- app_assoc. by inversion Hre. }
    destruct err as [err|].
    + destruct r; apply Hrest; cbn; congruence.
    + destruct r as [r|]; [| congruence].
      destruct (dns.Rcode r =? dns.RcodeSuccess) eqn:Hrc.
      * cbn [list_find]. rewrite decide_True by (cbn; by rewrite Hrc).
        reflexivity.
      * rewrite Hq. apply Hrest; unfold succeeded, recorded_error; cbn;
          rewrite Hrc; congruence.
Qed.

(** C4: [exchange] asks the configured servers in order.  A server whose
    exchange fails, or whose response has an RCODE other than success,
    is passed over, the error recorded being the client's own or the
    [RCodeError] of that RCODE for the queried name; the first server
    that answers with the RCODE of success ends the loop, its response
    is returned with no error whatever was recorded before, and no later
    server is asked; when no server succeeds, all have been asked and
    the error recorded for the last one is returned. *)
Theorem exchange_failover (msg : dns.Msg) (q : dns.Question)
    (qs : list dns.Question) (s : State)
    (Hq : dns.Questions msg = q :: qs) (Hc : answers_or_fails) :
  exchange e ctx msg s =
  match list_find (fun a => succeeded a = true)
          (attempts e ctx msg (dns.Servers (Cfg e)) (world s)) with
  | Some (i, a) =>
      (Returned (reported (server a) <$> fst (answer a), None),
       {| world := after a;
          calls := calls s
                   ++ map (call e msg) (take (S i) (dns.Servers (Cfg e))) |})
  | None =>
      match last (attempts e ctx msg (dns.Servers (Cfg e)) (world s)) with
      | Some a =>
          (Returned (fst (answer a), recorded_error q a),
           {| world := after a;
              calls := calls s ++ map (call e msg) (dns.Servers (Cfg e)) |})
      | None =>
          (Returned (None, None),
           {| world := world s;
              calls := calls s ++ map (call e msg) (dns.Servers (Cfg e)) |})
      end
  end.
Proof.
  unfold exchange. exact (exchange_loop_closed_form msg q qs _ Hq Hc None None s).
Qed.

(** What the loop holds on entry is overwritten by the first server
    asked. *)
Lemma exchange_loop_forgets (msg : dns.Msg) (servers : list string)
    (r1 r2 : option dns.Msg) (e1 e2 : option error) (s : State) :
  servers <> [] ->
  exchange_loop e ctx msg servers r1 e1 s
  = exchange_loop e ctx msg servers r2 e2 s.
Proof.
  destruct servers as [|srv rest]; [done | intros _].
  by rewrite !exchange_loop_step.
Qed.

(** Fail-over: when the exchange with the first server fails and there
    are more servers, the lookup is the lookup against the others, in
    the world the failed exchange left: the error is forgotten. *)
Lemma exchange_skips_failed_server (msg : dns.Msg) (srv : string)
    (rest : list string) (s : State) (r : option dns.Msg) (err : error)
    (w : World) :
  rest <> [] ->
  cl_ExchangeContext ctx msg (address e srv) (world s) = ((r, Some err), w) ->
  exchange_loop e ctx msg (srv :: rest) None None s
  = exchange_loop e ctx msg rest None None (logged e msg srv w s).
Proof.
  intros Hne Hx. rewrite exchange_loop_step, Hx. cbn zeta.
  destruct r; by apply exchange_loop_forgets.
Qed.

(** A run of the loop that ends with a response and no error either
    asked no server, or ended on a server that answered with the RCODE
    of success, and returns that answer as reported for that server. *)
Lemma exchange_loop_success (msg : dns.Msg) (servers : list string) :
  forall (resp0 : option dns.Msg) (err0 : option error) (s s' : State)
         (resp : dns.Msg),
  exchange_loop e ctx msg servers resp0 err0 s
    = (Returned (Some resp, None), s') ->
  (servers = [] /\ resp0 = Some resp /\ err0 = None /\ s' = s)
  \/ exists (srv : string) (wire : dns.Msg) (w : World),
       In srv servers
       /\ last (calls s') = Some (call e msg srv)
       /\ cl_ExchangeContext ctx msg (address e srv) w
          = ((Some wire, None), world s')
       /\ dns.Rcode wire = dns.RcodeSuccess
       /\ resp = reported srv wire.
Proof.
  induction servers as [|srv rest IH]; intros resp0 err0 s s' resp.
  - cbn. intros [= -> -> ->]. by left.
  - rewrite exchange_loop_step.
    destruct (cl_ExchangeContext ctx msg _ (world s)) as [[r err] w] eqn:Hx.
    cbn zeta. intros Hrun. right.
    assert (Hlater : forall r1 err1,
      exchange_loop e ctx msg rest r1 (Some err1) (logged e msg srv w s)
        = (Returned (Some resp, None), s') ->
      exists (srv0 : string) (wire : dns.Msg) (w0 : World),
        In srv0 (srv :: rest)
        /\ last (calls s') = Some (call e msg srv0)
        /\ cl_ExchangeContext ctx msg (address e srv0) w0
           = ((Some wire, None), world s')
        /\ dns.Rcode wire = dns.RcodeSuccess
        /\ resp = reported srv0 wire).
    { intros r1 err1 Hrest.
      destruct (IH _ _ _ _ _ Hrest) as [(_ & _ & Hno & _) | Hsrv];
        [discriminate |].
      destruct Hsrv as (srv0 & wire & w0 & Hin & Hrem).
      exists srv0, wire, w0. split; [by right | exact Hrem]. }
    destruct err as [err|]; [destruct r; by eapply Hlater |].
    destruct r as [r|]; [| discriminate].
    destruct (dns.Rcode r =? dns.RcodeSuccess) eqn:Hrc.
    + injection Hrun as <- <-.
      exists srv, r, (world s). repeat split.
      * by left.
      * cbn. by rewrite last_snoc.
      * exact Hx.
      * by apply Z.eqb_eq.
    + destruct (dns.Questions msg); [discriminate | by eapply Hlater].
Qed.

(** C1: a response [exchange] returns without error is the answer of a
    configured server, the last one asked, which answered with the RCODE
    of success; its AuthenticatedData flag is false when that server's
    address is not a loopback IP, whatever the flag of the answer, and
    is the flag of the answer when the address is a loopback IP.  The
    rest of the response is the answer's, and a lookup that makes this
    exchange reports that flag with the records of the answer. *)
Theorem exchange_trust_rule (msg : dns.Msg) (s s' : State) (resp : dns.Msg)
    (Hrun : exchange e ctx msg s = (Returned (Some resp, None), s')) :
  exists (srv : string) (wire : dns.Msg) (w : World),
    In srv (dns.Servers (Cfg e))
    /\ last (calls s') = Some (call e msg srv)
    /\ cl_ExchangeContext ctx msg (address e srv) w
       = ((Some wire, None), world s')
    /\ dns.Rcode wire = dns.RcodeSuccess
    /\ (isLoopback srv = false -> dns.AuthenticatedData resp = false)
    /\ (isLoopback srv = true ->
        dns.AuthenticatedData resp = dns.AuthenticatedData wire)
    /\ resp = dns.set_AuthenticatedData wire (dns.AuthenticatedData resp)
    /\ (forall (R : Type) (records : list dns.RR -> list R),
          single_query records (exchange e ctx msg s)
          = (Returned (isLoopback srv && dns.AuthenticatedData wire,
                       records (dns.Answer wire), None), s')).
Proof.
  pose proof Hrun as Hloop. unfold exchange in Hloop.
  destruct (exchange_loop_success _ _ _ _ _ _ _ Hloop)
    as [(_ & Hnone & _) | (srv & wire & w & Hin & Hlast & Hx & Hrc & Hresp)];
    [discriminate |].
  exists srv, wire, w. subst resp. unfold reported in *.
  repeat split; try assumption.
  - by intros ->.
  - by intros ->.
  - destruct (isLoopback srv); by destruct wire.
  - intros R records. rewrite Hrun. unfold single_query.
    by destruct (isLoopback srv).
Qed.

(** The answer loops: appending the records of one type, in order. *)
Lemma fold_left_append_omap {A B : Type} (f : A -> option B)
    (g : list B -> A -> list B) (l : list A) :
  (forall acc x,
     g acc x = match f x with Some y => acc ++ [y] | None => acc end) ->
  forall acc, fold_left g l acc = acc ++ omap f l.
Proof.
  intros Hg. induction l as [|x l IH]; intros acc; cbn.
  - by rewrite app_nil_r.
  - rewrite IH, Hg. destruct (f x); [by rewrite <- app_assoc | done].
Qed.

Ltac single_query_cases f :=
  unfold single_query, mbind, Go_bind;
  destruct (exchange e ctx _ _) as [[[r [err|]]|p] s']; try reflexivity;
  [ by destruct r
  | destruct r as [r|]; cbn; [| reflexivity];
    unfold mret, Go_ret; do 3 f_equal;
    rewrite (fold_left_append_omap f); [done | by intros acc []] ].

Lemma AuthLookupMX_exchange (name : string) (s : State) :
  AuthLookupMX e ctx name s
  = single_query records_MX
      (exchange e ctx (query (dns_Fqdn name) dns.TypeMX) s).
Proof.
  unfold AuthLookupMX.
  change (dns.set_AuthenticatedData _ true)
    with (query (dns_Fqdn name) dns.TypeMX).
  single_query_cases
    (fun rr => match rr with
               | dns.RR_MX preference mx =>
                   Some {| Host := mx; Pref := preference |}
               | _ => None
               end).
Qed.

Lemma AuthLookupTXT_exchange (name : string) (s : State) :
  AuthLookupTXT e ctx name s
  = single_query records_TXT
      (exchange e ctx (query (dns_Fqdn name) dns.TypeTXT) s).
Proof.
  unfold AuthLookupTXT.
  change (dns.set_AuthenticatedData _ true)
    with (query (dns_Fqdn name) dns.TypeTXT).
  single_query_cases
    (fun rr => match rr with
               | dns.RR_TXT txt => Some (String.concat "" txt)
               | _ => None
               end).
Qed.

(** A subject that does not parse is an error before any exchange. *)
Lemma AuthLookupAddr_exchange (addr : string) (s : State) :
  AuthLookupAddr e ctx addr s
  = match dns_ReverseAddr addr with
    | (_, Some err) => (Returned (false, [], Some err), s)
    | (revAddr, None) =>
        single_query records_PTR
          (exchange e ctx (query revAddr dns.TypePTR) s)
    end.
Proof.
  unfold AuthLookupAddr.
  destruct (dns_ReverseAddr addr) as [revAddr [err0|]]; [reflexivity |].
  change (dns.set_AuthenticatedData _ true)
    with (query revAddr dns.TypePTR).
  single_query_cases
    (fun rr => match rr with dns.RR_PTR ptr => Some ptr | _ => None end).
Qed.

Lemma AuthLookupTLSA_exchange (service network domain : string) (s : State) :
  AuthLookupTLSA e ctx service network domain s
  = match dns_TLSAName domain service network with
    | (_, Some err) => (Returned (false, [], Some err), s)
    | (name, None) =>
        single_query records_TLSA
          (exchange e ctx (query (dns_Fqdn name) dns.TypeTLSA) s)
    end.
Proof.
  unfold AuthLookupTLSA.
  destruct (dns_TLSAName domain service network) as [name [err0|]];
    [reflexivity |].
  change (dns.set_AuthenticatedData _ true)
    with (query (dns_Fqdn name) dns.TypeTLSA).
  single_query_cases
    (fun rr => match rr with dns.RR_TLSA rr => Some rr | _ => None end).
Qed.

Lemma AuthLookupIPAddr_exchange (host : string) (s : State) :
  AuthLookupIPAddr e ctx host s
  = both_legs
      (single_query records_AAAA
         (exchange e ctx (query (dns_Fqdn host) dns.TypeAAAA) s))
      (fun s1 =>
         single_query records_A
           (exchange e ctx (query (dns_Fqdn host) dns.TypeA) s1)).
Proof.
  unfold AuthLookupIPAddr, both_legs, single_query, mbind, Go_bind.
  change (dns.set_AuthenticatedData
            (dns.SetEdns0 (dns.SetQuestion dns.new_Msg (dns_Fqdn host)
                             dns.TypeAAAA) 4096 false) true)
    with (query (dns_Fqdn host) dns.TypeAAAA).
  change (dns.set_AuthenticatedData
            (dns.SetEdns0 (dns.SetQuestion dns.new_Msg (dns_Fqdn host)
                             dns.TypeA) 4096 false) true)
    with (query (dns_Fqdn host) dns.TypeA).
  destruct (exchange e ctx (query (dns_Fqdn host) dns.TypeAAAA) s)
    as [[[r6 [err|]]|p] s1]; try reflexivity.
  { by destruct r6. }
  destruct r6 as [r6|]; cbn; [| reflexivity].
  destruct (exchange e ctx (query (dns_Fqdn host) dns.TypeA) s1)
    as [[[r4 [err|]]|p] s2]; try reflexivity.
  { by destruct r4. }
  destruct r4 as [r4|]; cbn; [| reflexivity].
  unfold mret, Go_ret. do 3 f_equal.
  rewrite (fold_left_append_omap
             (fun rr => match rr with
                        | dns.RR_AAAA aaaa => Some {| IP := aaaa |}
                        | _ => None
                        end) _ (dns.Answer r6)) by (by intros acc []).
  rewrite (fold_left_append_omap
             (fun rr => match rr with
                        | dns.RR_A a => Some {| IP := a |}
                        | _ => None
                        end) _ (dns.Answer r4)) by (by intros acc []).
  reflexivity.
Qed.

(** The exchanges of one [exchange] are with a prefix of the server
    list, and carry the query. *)
Lemma exchange_calls (msg : dns.Msg) (s : State) :
  exists k : nat,
    (k <= length (dns.Servers (Cfg e)))%nat /\
    calls (snd (exchange e ctx msg s))
    = calls s ++ map (call e msg) (take k (dns.Servers (Cfg e))).
Proof.
  destruct (exchange_loop_calls msg (dns.Servers (Cfg e)) None None s)
    as (k & Hk & _ & Hc).
  by exists k.
Qed.

Lemma single_query_state {R : Type} (records : list dns.RR -> list R)
    (x : outcome (option dns.Msg * option error) * State) :
  snd (single_query records x) = snd x.
Proof.
  destruct x as [[[[r|] [err|]]|p] s']; reflexivity.
Qed.

(** C5: [AuthLookupIPAddr] runs the AAAA query and then, from the state
    that leg left, the A query.  When the first leg fails the call
    returns its error with a false flag and no addresses, and the
    second leg is not run; when the second fails the call returns its
    error, again with a false flag and no addresses; otherwise the flag
    is the conjunction of the legs' flags and the addresses are those
    of the AAAA leg followed by those of the A leg.  The exchanges are
    those of the AAAA query with a prefix of the server list, followed
    by those of the A query with a prefix of the server list. *)
Theorem AuthLookupIPAddr_legs (host : string) (s : State) :
  AuthLookupIPAddr e ctx host s
  = both_legs
      (single_query records_AAAA
         (exchange e ctx (query (dns_Fqdn host) dns.TypeAAAA) s))
      (fun s1 =>
         single_query records_A
           (exchange e ctx (query (dns_Fqdn host) dns.TypeA) s1))
  /\ exists k6 k4 : nat,
       (k6 <= length (dns.Servers (Cfg e)))%nat
       /\ (k4 <= length (dns.Servers (Cfg e)))%nat
       /\ calls (snd (AuthLookupIPAddr e ctx host s))
          = calls s
            ++ map (call e (query (dns_Fqdn host) dns.TypeAAAA))
                 (take k6 (dns.Servers (Cfg e)))
            ++ map (call e (query (dns_Fqdn host) dns.TypeA))
                 (take k4 (dns.Servers (Cfg e))).
Proof.
  split; [apply AuthLookupIPAddr_exchange |].
  rewrite AuthLookupIPAddr_exchange.
  destruct (exchange_calls (query (dns_Fqdn host) dns.TypeAAAA) s)
    as (k6 & Hk6 & Hc6).
  pose proof (single_query_state records_AAAA
                (exchange e ctx (query (dns_Fqdn host) dns.TypeAAAA) s))
    as Hs6.
  unfold both_legs.
  destruct (single_query records_AAAA _) as [[[[ad6 recs6] [err6|]]|p6] s1];
    cbn [snd] in *; subst s1.
  - exists k6, 0%nat. cbn [take map]. rewrite app_nil_r.
    repeat split; [done | lia | done].
  - destruct (exchange_calls (query (dns_Fqdn host) dns.TypeA)
                (snd (exchange e ctx (query (dns_Fqdn host) dns.TypeAAAA) s)))
      as (k4 & Hk4 & Hc4).
    pose proof (single_query_state records_A
                  (exchange e ctx (query (dns_Fqdn host) dns.TypeA)
                     (snd (exchange e ctx
                             (query (dns_Fqdn host) dns.TypeAAAA) s))))
      as Hs4.
    exists k6, k4. repeat split; [done | done |].
    destruct (single_query records_A _) as [[[[ad4 recs4] [err4|]]|p4] s2];
      cbn [snd] in *; subst s2; by rewrite Hc4, Hc6, <- app_assoc.
  - exists k6, 0%nat. cbn [take map]. rewrite app_nil_r.
    repeat split; [done | lia | done].
Qed.

(** With no server configured, [exchange] returns neither a response nor
    an error. *)
Lemma exchange_no_servers (msg : dns.Msg) (s : State) :
  dns.Servers (Cfg e) = [] ->
  exchange e ctx msg s = (Returned (None, None), s).
Proof.
  unfold exchange. by intros ->.
Qed.

(** With a client that returns a response or an error, a run of the loop
    over at least one server returns, and returns a response when it
    returns no error. *)
Lemma exchange_loop_safe (msg : dns.Msg) (q : dns.Question)
    (qs : list dns.Question) (servers : list string) :
  dns.Questions msg = q :: qs ->
  answers_or_fails ->
  forall (resp0 : option dns.Msg) (err0 : option error) (s : State),
  (servers = [] -> err0 = None -> resp0 <> None) ->
  exists resp err s',
    exchange_loop e ctx msg servers resp0 err0 s = (Returned (resp, err), s')
    /\ (err = None -> resp <> None).
Proof.
  intros Hq Hc.
  induction servers as [|srv rest IH]; intros resp0 err0 s Hentry.
  - exists resp0, err0, s. split; [done | by apply Hentry].
  - rewrite exchange_loop_step.
    pose proof (Hc ctx msg (address e srv) (world s)) as Hnn.
    destruct (cl_ExchangeContext ctx msg _ (world s)) as [[r err] w].
    cbn [fst] in Hnn. cbn zeta.
    destruct err as [err|]; [destruct r; by apply IH |].
    destruct r as [r|]; [| congruence].
    destruct (dns.Rcode r =? dns.RcodeSuccess).
    + by eexists _, _, _.
    + rewrite Hq. by apply IH.
Qed.

Lemma single_query_returns {R : Type} (records : list dns.RR -> list R)
    (resp : option dns.Msg) (err : option error) (s' : State) :
  (err = None -> resp <> None) ->
  returns (single_query records (Returned (resp, err), s')).
Proof.
  intros Hresp. unfold returns, single_query.
  destruct err as [err|]; [destruct resp; by eexists |].
  destruct resp as [r|]; [by eexists | by destruct Hresp].
Qed.

Lemma single_query_exchange_returns {R : Type}
    (records : list dns.RR -> list R) (name : string) (t : Z) (s : State) :
  dns.Servers (Cfg e) <> [] ->
  answers_or_fails ->
  returns (single_query records (exchange e ctx (query name t) s)).
Proof.
  intros Hne Hc.
  destruct (exchange_loop_safe (query name t) _ _ (dns.Servers (Cfg e))
              eq_refl Hc None None s)
    as (resp & err & s' & Hrun & Hresp); [done |].
  unfold exchange. rewrite Hrun. by apply single_query_returns.
Qed.

(** C10: with an empty server list [exchange] returns a nil response and
    a nil error, and every lookup that gets as far as its exchange then
    dereferences the nil response: [AuthLookupMX], [AuthLookupTXT] and
    [AuthLookupIPAddr] always, [AuthLookupAddr] and [AuthLookupTLSA]
    when their subject parses.  With a server configured, and a client
    that returns a response or an error, every lookup returns. *)
Theorem lookups_need_a_server :
  (dns.Servers (Cfg e) = [] ->
   (forall msg s, exchange e ctx msg s = (Returned (None, None), s))
   /\ (forall name s,
         AuthLookupMX e ctx name s = (Panicked NilPointerDereference, s))
   /\ (forall name s,
         AuthLookupTXT e ctx name s = (Panicked NilPointerDereference, s))
   /\ (forall host s,
         AuthLookupIPAddr e ctx host s = (Panicked NilPointerDereference, s))
   /\ (forall addr s,
         snd (dns_ReverseAddr addr) = None ->
         AuthLookupAddr e ctx addr s = (Panicked NilPointerDereference, s))
   /\ (forall service network domain s,
         snd (dns_TLSAName domain service network) = None ->
         AuthLookupTLSA e ctx service network domain s
         = (Panicked NilPointerDereference, s)))
  /\ (dns.Servers (Cfg e) <> [] ->
      answers_or_fails ->
      (forall name s, returns (AuthLookupMX e ctx name s))
      /\ (forall name s, returns (AuthLookupTXT e ctx name s))
      /\ (forall host s, returns (AuthLookupIPAddr e ctx host s))
      /\ (forall addr s, returns (AuthLookupAddr e ctx addr s))
      /\ (forall service network domain s,
            returns (AuthLookupTLSA e ctx service network domain s))).
Proof.
  split.
  - intros Hnil. repeat split.
    + intros msg s. by apply exchange_no_servers.
    + intros name s.
      by rewrite AuthLookupMX_exchange, exchange_no_servers.
    + intros name s.
      by rewrite AuthLookupTXT_exchange, exchange_no_servers.
    + intros host s.
      by rewrite AuthLookupIPAddr_exchange, exchange_no_servers.
    + intros addr s Hparse. rewrite AuthLookupAddr_exchange.
      destruct (dns_ReverseAddr addr) as [revAddr err]. cbn in Hparse.
      subst err. by rewrite exchange_no_servers.
    + intros service network domain s Hparse.
      rewrite AuthLookupTLSA_exchange.
      destruct (dns_TLSAName domain service network) as [name err].
      cbn in Hparse. subst err. by rewrite exchange_no_servers.
  - intros Hne Hc. repeat split.
    + intros name s. rewrite AuthLookupMX_exchange.
      by apply single_query_exchange_returns.
    + intros name s. rewrite AuthLookupTXT_exchange.
      by apply single_query_exchange_returns.
    + intros host s. rewrite AuthLookupIPAddr_exchange. unfold both_legs.
      destruct (single_query_exchange_returns records_AAAA (dns_Fqdn host)
                  dns.TypeAAAA s Hne Hc) as [[[ad6 recs6] err6] H6].
      destruct (single_query records_AAAA _) as [o6 s1]. cbn in H6. subst o6.
      destruct err6 as [err6|]; [by eexists |].
      destruct (single_query_exchange_returns records_A (dns_Fqdn host)
                  dns.TypeA s1 Hne Hc) as [[[ad4 recs4] err4] H4].
      destruct (single_query records_A _) as [o4 s2]. cbn in H4. subst o4.
      destruct err4; by eexists.
    + intros addr s. rewrite AuthLookupAddr_exchange.
      destruct (dns_ReverseAddr addr) as [revAddr [err|]]; [by eexists |].
      by apply single_query_exchange_returns.
    + intros service network domain s. rewrite AuthLookupTLSA_exchange.
      destruct (dns_TLSAName domain service network) as [name [err|]];
        [by eexists |].
      by apply single_query_exchange_returns.
Qed.

(** C8, as the code has it: the loop does not look at the context.  A
    cancellation error from the exchange with one server is recorded
    like any other error and the loop goes on to the next server, which
    it asks with the same context; the error is what the caller gets
    when that server was the last. *)
Theorem exchange_cancel_continues (msg : dns.Msg) (srv nxt : string)
    (rest : list string) (resp0 r : option dns.Msg) (err0 : option error)
    (s : State) (w : World)
    (Hcancel : cl_ExchangeContext ctx msg (address e srv) (world s)
               = ((r, Some ErrCanceled), w)) :
  exchange_loop e ctx msg (srv :: nxt :: rest) resp0 err0 s
  = exchange_loop e ctx msg (nxt :: rest) r (Some ErrCanceled)
      (logged e msg srv w s)
  /\ (exists later : list Call,
        calls (snd (exchange_loop e ctx msg (srv :: nxt :: rest) resp0 err0 s))
        = calls s ++ call e msg srv :: call e msg nxt :: later)
  /\ exchange_loop e ctx msg [srv] resp0 err0 s
     = (Returned (r, Some ErrCanceled), logged e msg srv w s).
Proof.
  assert (Hstep : forall more,
    exchange_loop e ctx msg (srv :: more) resp0 err0 s
    = exchange_loop e ctx msg more r (Some ErrCanceled) (logged e msg srv w s)).
  { intros more. rewrite exchange_loop_step, Hcancel. by destruct r. }
  repeat split.
  - apply Hstep.
  - rewrite Hstep.
    destruct (exchange_loop_calls msg (nxt :: rest) r (Some ErrCanceled)
                (logged e msg srv w s)) as (k & _ & Hk & ->); [].
    destruct k as [|k]; [specialize (Hk ltac:(done)); lia |].
    exists (map (call e msg) (take k rest)).
    cbn. by rewrite <- app_assoc.
  - by rewrite Hstep.
Qed.

End resolver_properties.

(** ** The resolver on the example network *)

Section resolver_examples.

Import dnssec resolver_run example.

(** The clients of the example network keep the client's contract. *)
Lemma example_client_answers_or_fails (honours : bool) :
  @answers_or_fails (client honours).
Proof.
  intros ctx msg addr w. cbn. unfold example.ExchangeContext.
  repeat case_match; cbn; congruence.
Qed.

(** The trust rule at the resolver across the network, which answers
    with the flag set: the flag is reported false. *)
Lemma exchange_trust_rule_witness :
  let msg := query "example.org." dns.TypeA in
  let remote := resolver ["192.0.2.53"] in
  let resp := dns.set_AuthenticatedData (reply msg dns.RcodeSuccess true) false in
  let s' := @logged (client true) remote msg "192.0.2.53" false (start true) in
  @exchange lib (client true) remote tt msg (start true)
    = (Returned (Some resp, None), s')
  /\ exists (srv : string) (wire : dns.Msg) (w : bool),
       In srv ["192.0.2.53"]
       /\ last (calls s') = Some (call remote msg srv)
       /\ example.ExchangeContext true tt msg (address remote srv) w
          = ((Some wire, None), false)
       /\ dns.Rcode wire = dns.RcodeSuccess
       /\ (isLoopback srv = false -> dns.AuthenticatedData resp = false)
       /\ (isLoopback srv = true ->
           dns.AuthenticatedData resp = dns.AuthenticatedData wire)
       /\ resp = dns.set_AuthenticatedData wire (dns.AuthenticatedData resp)
       /\ (forall (R : Type) (records : list dns.RR -> list R),
             @single_query (client true) R records
               (@exchange lib (client true) remote tt msg (start true))
             = (Returned (isLoopback srv && dns.AuthenticatedData wire,
                          records (dns.Answer wire), None), s')).
Proof.
  intros msg remote resp s'.
  assert (Hrun : @exchange lib (client true) remote tt msg (start true)
                 = (Returned (Some resp, None), s')).
  { vm_compute. reflexivity. }
  split; [exact Hrun |].
  exact (@exchange_trust_rule lib (client true) remote tt msg (start true) s'
           resp Hrun).
Defined.

(** The resolver on the local host answers with the flag set, and the
    flag is reported as answered. *)
Example exchange_loopback_keeps_flag :
  let msg := query "example.org." dns.TypeA in
  fst (@exchange lib (client true) (resolver ["127.0.0.1"]) tt msg
         (start true))
  = Returned (Some (reply msg dns.RcodeSuccess true), None)
  /\ dns.AuthenticatedData (reply msg dns.RcodeSuccess true) = true.
Proof.
  split; vm_compute; reflexivity.
Qed.

(** Fail-over past a server that is down and one that answers SERVFAIL:
    the third server's answer is returned with no error, and the fourth
    server is not asked. *)
Lemma exchange_failover_witness :
  let msg := query "example.org." dns.TypeMX in
  let e := resolver ["192.0.2.1"; "192.0.2.2"; "192.0.2.53"; "127.0.0.1"] in
  @exchange lib (client true) e tt msg (start true)
  = (Returned
       (Some (dns.set_AuthenticatedData (reply msg dns.RcodeSuccess true) false),
        None),
     @Build_State (client true) false
       (map (call e msg) ["192.0.2.1"; "192.0.2.2"; "192.0.2.53"])).
Proof.
  intros msg e.
  rewrite (@exchange_failover lib (client true) e tt msg
             {| dns.Name := "example.org."; dns.Qtype := dns.TypeMX;
                dns.Qclass := dns.ClassINET |} [] (start true) eq_refl
             (example_client_answers_or_fails true)).
  vm_compute. reflexivity.
Defined.


(** When no server succeeds the error of the last one asked is
    returned: the [RCodeError] of SERVFAIL after a timeout, the timeout
    after SERVFAIL. *)
Example exchange_last_error :
  let msg := query "example.org." dns.TypeMX in
  fst (@exchange lib (client true) (resolver ["192.0.2.1"; "192.0.2.2"]) tt
         msg (start true))
  = Returned
      (Some (reply msg dns.RcodeServerFailure false),
       Some (ErrRCode {| Name := "example.org.";
                         Code := dns.RcodeServerFailure |}))
  /\ fst (@exchange lib (client true) (resolver ["192.0.2.2"; "192.0.2.1"])
            tt msg (start true))
     = Returned (None, Some (ErrOther "i/o timeout")).
Proof.
  split; vm_compute; reflexivity.
Qed.

(** The combined lookup through the local resolver, after a server that
    answers SERVFAIL to either query: both legs are authenticated, the
    IPv6 address comes before the two IPv4 addresses, and the two
    exchanges of the AAAA query come before the two of the A query. *)
Example AuthLookupIPAddr_example :
  let e := resolver ["192.0.2.2"; "127.0.0.1"] in
  @AuthLookupIPAddr lib (client true) e tt "example.org" (start true)
  = (Returned
       (true,
        [ {| IP := repeat Byte.x00 15 ++ [Byte.x0a] |};
          {| IP := ip4 Byte.xc0 Byte.x00 Byte.x02 Byte.x0a |};
          {| IP := ip4 Byte.xc0 Byte.x00 Byte.x02 Byte.x0b |} ],
        None),
     @Build_State (client true) false
       (map (call e (query "example.org." dns.TypeAAAA))
          ["192.0.2.2"; "127.0.0.1"]
        ++ map (call e (query "example.org." dns.TypeA))
             ["192.0.2.2"; "127.0.0.1"])).
Proof.
  vm_compute. reflexivity.
Qed.

(** A cancellation during the exchange with the first of two servers:
    the loop goes on to the second. *)
Lemma exchange_cancel_continues_witness :
  let msg := query "example.org." dns.TypeTXT in
  let e := resolver ["192.0.2.9"; "127.0.0.1"] in
  @exchange_loop lib (client true) e tt msg ["192.0.2.9"; "127.0.0.1"]
    None None (start true)
  = @exchange_loop lib (client true) e tt msg ["127.0.0.1"]
      None (Some ErrCanceled)
      (@logged (client true) e msg "192.0.2.9" true (start true))
  /\ (exists later : list Call,
        calls (snd (@exchange_loop lib (client true) e tt msg
                      ["192.0.2.9"; "127.0.0.1"] None None (start true)))
        = calls (start true)
          ++ call e msg "192.0.2.9" :: call e msg "127.0.0.1" :: later)
  /\ @exchange_loop lib (client true) e tt msg ["192.0.2.9"]
       None None (start true)
     = (Returned (None, Some ErrCanceled),
        @logged (client true) e msg "192.0.2.9" true (start true)).
Proof.
  intros msg e.
  apply (@exchange_cancel_continues lib (client true) e tt msg
           "192.0.2.9" "127.0.0.1" [] None None None (start true) true).
  vm_compute. reflexivity.
Defined.

(** C8 as stated fails: the context is cancelled during the exchange
    with the first server, and the second server is asked all the same;
    with a client that does not fail later exchanges for the cancelled
    context, the caller gets the second server's answer and no error. *)
Lemma exchange_cancel_falls_through :
  let msg := query "example.org." dns.TypeTXT in
  let e := resolver ["192.0.2.9"; "127.0.0.1"] in
  (forall honours : bool,
     example.ExchangeContext honours tt msg (address e "192.0.2.9") false
     = ((None, Some ErrCanceled), true))
  /\ (forall honours : bool,
        map call_addr
          (calls (snd (@exchange lib (client honours) e tt msg
                         (start honours))))
        = ["192.0.2.9:53"; "127.0.0.1:53"])
  /\ fst (@exchange lib (client true) e tt msg (start true))
     = Returned (None, Some ErrCanceled)
  /\ fst (@exchange lib (client false) e tt msg (start false))
     = Returned (Some (reply msg dns.RcodeSuccess true), None)
  /\ ~ @cancellation_stops_failover lib (client true) e tt.
Proof.
  intros msg e. split; [| split; [| split; [| split]]].
  - intros []; vm_compute; reflexivity.
  - intros []; vm_compute; reflexivity.
  - vm_compute. reflexivity.
  - vm_compute. reflexivity.
  - intros Hclaim.
    specialize (Hclaim msg "192.0.2.9" ["127.0.0.1"] None None (start true)
                  None true eq_refl).
    vm_compute in Hclaim. discriminate Hclaim.
Qed.

(** Without a server the lookups that reach their exchange panic, and a
    lookup of an address that does not parse returns its error; with a
    server, even one that is down, the lookups return. *)
Lemma lookups_need_a_server_witness :
  (@AuthLookupMX lib (client true) (resolver []) tt "example.org" (start true)
   = (Panicked NilPointerDereference, start true)
   /\ @AuthLookupAddr lib (client true) (resolver []) tt "127.0.0.1"
        (start true)
      = (Panicked NilPointerDereference, start true)
   /\ @AuthLookupAddr lib (client true) (resolver []) tt "localhost"
        (start true)
      = (Returned
           (false, [],
            Some (ErrOther "dns: unrecognized address: localhost")),
         start true))
  /\ (@returns (client true) _
        (@AuthLookupMX lib (client true) (resolver ["192.0.2.1"]) tt
           "example.org" (start true))
      /\ @returns (client true) _
           (@AuthLookupIPAddr lib (client true)
              (resolver ["192.0.2.2"; "127.0.0.1"]) tt
              "example.org" (start true))).
Proof.
  split.
  - destruct (proj1 (@lookups_need_a_server lib (client true) (resolver []) tt)
                eq_refl) as (_ & Hmx & _ & _ & Haddr & _).
    split; [apply Hmx | split].
    + apply Haddr. vm_compute. reflexivity.
    + vm_compute. reflexivity.
  - split.
    + apply (proj2 (@lookups_need_a_server lib (client true)
                      (resolver ["192.0.2.1"]) tt)
               ltac:(discriminate) (example_client_answers_or_fails true)).
    + apply (proj2 (@lookups_need_a_server lib (client true)
                      (resolver ["192.0.2.2"; "127.0.0.1"]) tt)
               ltac:(discriminate) (example_client_answers_or_fails true)).
Defined.

End resolver_examples.

(** * Properties of the verify_dkim check *)

Section verify_dkim_properties.

Import authres verify_dkim check_run.

Context `{Lib}.

(** C6: for a header without a DKIM-Signature field, [CheckBody] returns
    the no-signature action applied to the result with reason
    "No DKIM signatures" (code 550, enhanced code 5.7.20); its
    authentication results are one record, of value none; all it does
    besides is write one log line: the body is not opened, the verifier
    is not called, and the result is the same for every body. *)
Theorem CheckBody_no_signature (c : Check) (header : Header) (body : Buffer)
    (Hno : Header_Has header "DKIM-Signature" = false) :
  fst (CheckBody c header body)
    = check.Apply (noSigAction c) no_signature_result
  /\ maddy_module.AuthResult (fst (CheckBody c header body))
     = [ {| Value := ResultNone; Reason := "";
            Domain := ""; Identifier := "" |} ]
  /\ maddy_module.Reason (fst (CheckBody c header body))
     = Some (exterrors.SMTP
         {| exterrors.Code := 550;
            exterrors.EnhancedCode := (5, 7, 20);
            exterrors.Message := "No DKIM signatures";
            exterrors.CheckName := "verify_dkim";
            exterrors.Err := None |})
  /\ snd (CheckBody c header body)
     = [ if check.Reject (noSigAction c) || check.Quarantine (noSigAction c)
         then log_Printf "no signatures present"
         else log_Debugf "no signatures present" ]
  /\ ~ In body_Open (snd (CheckBody c header body))
  /\ ~ In Verify (snd (CheckBody c header body))
  /\ forall body' : Buffer, CheckBody c header body' = CheckBody c header body.
Proof.
  unfold CheckBody. rewrite Hno. cbn [negb].
  destruct (check.Reject (noSigAction c) || check.Quarantine (noSigAction c));
    cbn; repeat split; try reflexivity; intros [Hin | []]; discriminate Hin.
Qed.

(** Every verification that carries an error is recorded as fail, with
    the error's text as the reason, and the loop goes on: [err], which
    the loop tests in place of the verification's error, is nil when
    the loop runs. *)
Lemma CheckBody_loop_error_is_fail (c : Check) (verif : dkim.Verification)
    (rest : list dkim.Verification) (goodSigs : bool)
    (res : maddy_module.CheckResult) (verif_Err : dkim.error) :
  dkim.Err verif = Some verif_Err ->
  fst (CheckBody_loop c None (verif :: rest) goodSigs res)
  = fst (CheckBody_loop c None rest goodSigs
           (append_AuthResult res
              {| Value := ResultFail;
                 Reason := strings_TrimPrefix (dkim.Error verif_Err) "dkim: ";
                 Domain := dkim.Domain verif;
                 Identifier := dkim.Identifier verif |})).
Proof.
  intros Herr. cbn [CheckBody_loop]. rewrite Herr. cbn [dkim.IsPermFail dkim.IsTempFail].
  unfold mbind, Traced_bind.
  destruct (negb _ || negb _); cbn [fst].
  all: destruct (CheckBody_loop _ _ _ _ _); reflexivity.
Qed.

(** Every verification without an error sets [goodSigs], whatever the
    two gates make of its record. *)
Lemma CheckBody_loop_valid_is_good (c : Check) (err : option dkim.error)
    (verif : dkim.Verification) (rest : list dkim.Verification)
    (goodSigs : bool) (res : maddy_module.CheckResult) :
  dkim.Err verif = None ->
  exists r : DKIMResult,
    fst (CheckBody_loop c err (verif :: rest) goodSigs res)
    = fst (CheckBody_loop c err rest true (append_AuthResult res r)).
Proof.
  intros Herr. cbn [CheckBody_loop]. rewrite Herr.
  unfold mbind, Traced_bind. cbn [fst emit].
  destruct (set_fold _ _ _) as [val reason].
  destruct (if (0 <=? dkim.BodyLength verif) && negb (allowBodySubset c)
            then _ else _) as [val' reason'].
  exists {| Value := val'; Reason := reason';
            Domain := dkim.Domain verif;
            Identifier := dkim.Identifier verif |}.
  destruct (CheckBody_loop _ _ _ _ _). reflexivity.
Qed.

(** The loop over the required fields: the record is downgraded exactly
    when some required field is not among the signed ones. *)
Lemma required_fields_gate (signedFields requiredFields : gset string)
    (val : ResultValue) (reason : string) :
  set_fold
    (fun field '(val, reason) =>
       if decide (field ∈ signedFields) then (val, reason)
       else (ResultPermError, "some header fields are not signed"))
    (val, reason) requiredFields
  = if decide (requiredFields ⊆ signedFields) then (val, reason)
    else (ResultPermError, "some header fields are not signed").
Proof.
  unfold set_fold. cbn.
  assert (Hl : forall l : list string,
    foldr
      (fun field '(val, reason) =>
         if decide (field ∈ signedFields) then (val, reason)
         else (ResultPermError, "some header fields are not signed"))
      (val, reason) l
    = if decide (Forall (fun field => field ∈ signedFields) l)
      then (val, reason)
      else (ResultPermError, "some header fields are not signed")).
  { induction l as [|field l IH]; cbn.
    - by rewrite decide_True.
    - rewrite IH.
      destruct (decide (field ∈ signedFields)) as [Hin | Hout].
      + destruct (decide (Forall _ l)) as [Hall | Hnot].
        * rewrite decide_True; [done | by constructor].
        * rewrite decide_False; [done |].
          intros Hall. by inversion Hall.
      + destruct (decide (Forall _ l));
          (rewrite decide_False; [done | intros Hall; by inversion Hall]). }
  rewrite Hl.
  destruct (decide (requiredFields ⊆ signedFields)) as [Hsub | Hnsub].
  - rewrite decide_True; [done |].
    apply Forall_forall. intros x Hx. apply Hsub. by apply elem_of_elements.
  - rewrite decide_False; [done |].
    intros Hall. apply Hnsub. intros x Hx.
    rewrite Forall_forall in Hall. apply Hall. by apply elem_of_elements.
Qed.

(** The fields a signature covers, as the loop over its header keys
    collects them. *)
Lemma signed_fields_spec (keys : list string) (acc : gset string)
    (field : string) :
  field ∈ fold_left
            (fun (m : gset string) key => {[ CanonicalMIMEHeaderKey key ]} ∪ m)
            keys acc
  <-> field ∈ acc \/ In field (map CanonicalMIMEHeaderKey keys).
Proof.
  revert acc. induction keys as [|key keys IH]; intros acc; cbn.
  - tauto.
  - rewrite IH, elem_of_union, elem_of_singleton. intuition auto.
Qed.

(** A verification without an error: the record the two gates leave,
    with [goodSigs] set whichever it is. *)
Lemma CheckBody_loop_valid (c : Check) (err : option dkim.error)
    (verif : dkim.Verification) (rest : list dkim.Verification)
    (goodSigs : bool) (res : maddy_module.CheckResult) :
  dkim.Err verif = None ->
  fst (CheckBody_loop c err (verif :: rest) goodSigs res)
  = fst (CheckBody_loop c err rest true
           (append_AuthResult res
              {| Value :=
                   if (0 <=? dkim.BodyLength verif) && negb (allowBodySubset c)
                   then ResultPermError
                   else if decide
                        (requiredFields c ⊆
                         fold_left
                           (fun (m : gset string) key =>
                              {[ CanonicalMIMEHeaderKey key ]} ∪ m)
                           (dkim.HeaderKeys verif) ∅)
                   then ResultPass else ResultPermError;
                 Reason :=
                   if (0 <=? dkim.BodyLength verif) && negb (allowBodySubset c)
                   then "body limit it used"
                   else if decide
                        (requiredFields c ⊆
                         fold_left
                           (fun (m : gset string) key =>
                              {[ CanonicalMIMEHeaderKey key ]} ∪ m)
                           (dkim.HeaderKeys verif) ∅)
                   then "" else "some header fields are not signed";
                 Domain := dkim.Domain verif;
                 Identifier := dkim.Identifier verif |})).
Proof.
  intros Herr. cbn [CheckBody_loop]. rewrite Herr.
  unfold mbind, Traced_bind. cbn [fst emit].
  rewrite required_fields_gate.
  destruct ((0 <=? dkim.BodyLength verif) && negb (allowBodySubset c));
    destruct (decide (requiredFields c ⊆ _));
    destruct (CheckBody_loop _ _ _ _ _); reflexivity.
Qed.

(** With [err] nil the loop never returns from inside: the branch that
    rejects with status 421 is not reached.  The loop adds records and
    leaves the rest of the result as it is. *)
Lemma CheckBody_loop_runs_to_end (c : Check)
    (verifications : list dkim.Verification) :
  forall (goodSigs : bool) (res : maddy_module.CheckResult),
  exists (goodSigs' : bool) (res' : maddy_module.CheckResult),
    fst (CheckBody_loop c None verifications goodSigs res)
    = inr (goodSigs', res')
    /\ maddy_module.Reason res' = maddy_module.Reason res
    /\ maddy_module.Reject res' = maddy_module.Reject res
    /\ maddy_module.Quarantine res' = maddy_module.Quarantine res.
Proof.
  induction verifications as [|verif rest IH]; intros goodSigs res.
  - by exists goodSigs, res.
  - destruct (dkim.Err verif) as [verif_Err|] eqn:Herr.
    + rewrite (CheckBody_loop_error_is_fail _ _ _ _ _ _ Herr).
      destruct (IH goodSigs (append_AuthResult res
                  {| Value := ResultFail;
                     Reason := strings_TrimPrefix (dkim.Error verif_Err)
                                 "dkim: ";
                     Domain := dkim.Domain verif;
                     Identifier := dkim.Identifier verif |}))
        as (g' & res' & Hrun & Hres).
      by exists g', res'.
    + destruct (CheckBody_loop_valid_is_good c None verif rest goodSigs res
                  Herr) as [r ->].
      destruct (IH true (append_AuthResult res r))
        as (g' & res' & Hrun & Hres).
      by exists g', res'.
Qed.

(** No result of [CheckBody] carries the status 421: an [SMTPError] it
    returns has the code 550. *)
Lemma CheckBody_never_421 (c : Check) (header : Header) (body : Buffer)
    (e : exterrors.SMTPError) :
  maddy_module.Reason (fst (CheckBody c header body))
    = Some (exterrors.SMTP e) ->
  exterrors.Code e = 550.
Proof.
  unfold CheckBody.
  destruct (negb (Header_Has header "DKIM-Signature")).
  { destruct (_ || _); cbn; by intros [= <-]. }
  unfold mbind, Traced_bind. cbn [emit fst snd mret Traced_ret].
  destruct (Open body) as [bodyRdr [err|]]; [cbn; discriminate |].
  destruct (dkim_Verify _) as [verifications [err|]]; [cbn; discriminate |].
  destruct (CheckBody_loop_runs_to_end c verifications false
              maddy_module.zero) as (goodSigs & res & Hloop & Hreason & _).
  destruct (CheckBody_loop c None verifications false maddy_module.zero)
    as [out t]. cbn in Hloop. subst out.
  destruct goodSigs; cbn.
  - rewrite Hreason. discriminate.
  - by intros [= <-].
Qed.

End verify_dkim_properties.

Section verify_dkim_examples.

Import authres verify_dkim check_run dkim_example.

(** A message without a signature, with the no-signature action set to
    reject. *)
Lemma CheckBody_no_signature_witness :
  fst (@CheckBody (lib ([], None)) (strict false) unsigned body)
    = check.Apply reject no_signature_result
  /\ maddy_module.AuthResult
       (fst (@CheckBody (lib ([], None)) (strict false) unsigned body))
     = [ {| Value := ResultNone; Reason := "";
            Domain := ""; Identifier := "" |} ]
  /\ snd (@CheckBody (lib ([], None)) (strict false) unsigned body)
     = [ log_Printf "no signatures present" ].
Proof.
  destruct (@CheckBody_no_signature (lib ([], None)) (strict false) unsigned
              body eq_refl) as (Hres & Hauth & _ & Hlog & _).
  exact (conj Hres (conj Hauth Hlog)).
Defined.


(** C2 on the code: a signature whose verification failed for a
    temporary reason is recorded as fail whether or not the check fails
    open, and the check ends with the broken-signature action and the
    status 550; a signature with a permanent defect is recorded as fail
    as well.  Neither the status 421 nor a temperror or permerror record
    comes out. *)
Theorem CheckBody_temporary_failure_is_fail :
  let keys := ["From"; "Subject"] in
  let temporary :=
    verification keys (-1)
      (Some (dkim.tempFailError "key unavailable: lookup timed out")) in
  let permanent :=
    verification keys (-1) (Some (dkim.permFailError "malformed header")) in
  let failed (reason : string) : maddy_module.CheckResult :=
    {| maddy_module.Reason := Some (exterrors.SMTP
         {| exterrors.Code := 550;
            exterrors.EnhancedCode := (5, 7, 20);
            exterrors.Message := "No passing DKIM signatures";
            exterrors.CheckName := "verify_dkim";
            exterrors.Err := None |});
       maddy_module.Reject := true;
       maddy_module.Quarantine := false;
       maddy_module.AuthResult :=
         [ {| Value := ResultFail; Reason := reason;
              Domain := "example.org"; Identifier := "@example.org" |} ] |} in
  fst (@CheckBody (lib ([temporary], None)) (strict false) signed body)
    = failed "key unavailable: lookup timed out"
  /\ fst (@CheckBody (lib ([temporary], None)) (strict true) signed body)
     = failed "key unavailable: lookup timed out"
  /\ fst (@CheckBody (lib ([permanent], None)) (strict false) signed body)
     = failed "malformed header".
Proof.
  cbv zeta. split; [| split]; vm_compute; reflexivity.
Qed.

(** C3 on the code: one valid signature that does not cover the
    required field Subject gives one permerror record with the reason
    of the first gate, and the check returns it as it is: the
    broken-signature action, here reject, is not applied and the result
    has no reason. *)
Theorem CheckBody_unsigned_field_not_rejected :
  fst (@CheckBody (lib ([verification ["from"; "to"] (-1) None], None))
         (strict false) signed body)
  = {| maddy_module.Reason := None;
       maddy_module.Reject := false;
       maddy_module.Quarantine := false;
       maddy_module.AuthResult :=
         [ {| Value := ResultPermError;
              Reason := "some header fields are not signed";
              Domain := "example.org"; Identifier := "@example.org" |} ] |}
  /\ brokenSigAction (strict false) = reject.
Proof.
  split; vm_compute; reflexivity.
Qed.

(** C7 on the code: a valid signature with a body length limit, where
    body subsets are not allowed, is recorded as permerror; the reason
    reads "body limit it used". *)
Theorem CheckBody_body_limit_reason :
  maddy_module.AuthResult
    (fst (@CheckBody
            (lib ([verification ["From"; "Subject"] 100 None], None))
            (strict false) signed body))
  = [ {| Value := ResultPermError;
         Reason := "body limit it used";
         Domain := "example.org"; Identifier := "@example.org" |} ]
  /\ "body limit it used" <> "body limit is used".
Proof.
  split; [vm_compute; reflexivity | discriminate].
Qed.

End verify_dkim_examples.

(** * Further properties of the resolver *)

(** ** The messages of [RCodeError] *)

Section RCodeError_messages.

Import dnssec.

(** The length of two strings appended. *)
Lemma string_length_app (s1 s2 : string) :
  String.length (s1 +:+ s2) = (String.length s1 + String.length s2)%nat.
Proof.
  induction s1 as [|c s1 IH]; [done |].
  change (String c s1 +:+ s2) with (String c (s1 +:+ s2)).
  cbn. by rewrite IH.
Qed.

(** Appending the same string on the right is injective. *)
Lemma string_app_inv_tail (s1 s2 t : string) :
  s1 +:+ t = s2 +:+ t -> s1 = s2.
Proof.
  revert s2. induction s1 as [|c s1 IH]; intros [|d s2] Heq.
  - done.
  - change ("" +:+ t) with t in Heq.
    apply (f_equal String.length) in Heq.
    rewrite (string_length_app (String d s2)) in Heq. cbn in Heq. lia.
  - change ("" +:+ t) with t in Heq.
    apply (f_equal String.length) in Heq.
    rewrite (string_length_app (String c s1)) in Heq. cbn in Heq. lia.
  - change (String c (s1 +:+ t) = String d (s2 +:+ t)) in Heq.
    injection Heq as -> Heq. f_equal. by apply IH.
Qed.

(** X1: Two RCODEs never print as the same message for the same name. *)
Theorem RCodeError_Error_distinct (name : string) (c1 c2 : Z)
    (Hne : c1 <> c2) :
  RCodeError_Error {| Name := name; Code := c1 |}
  <> RCodeError_Error {| Name := name; Code := c2 |}.
Proof.
  unfold RCodeError_Error. cbn [Name Code].
  unfold dns.RcodeFormatError, dns.RcodeServerFailure, dns.RcodeNameError,
    dns.RcodeNotImplemented, dns.RcodeRefused.
  intros Heq.
  destruct (Z.eqb_spec c1 1), (Z.eqb_spec c1 2), (Z.eqb_spec c1 3),
    (Z.eqb_spec c1 4), (Z.eqb_spec c1 5); try lia;
  destruct (Z.eqb_spec c2 1), (Z.eqb_spec c2 2), (Z.eqb_spec c2 3),
    (Z.eqb_spec c2 4), (Z.eqb_spec c2 5); try lia;
  try (cbv [String.append] in Heq; discriminate Heq).
  apply (inj (String.app _)) in Heq.
  apply Hne, (inj pretty).
  by apply (string_app_inv_tail _ _ (" when looking up " +:+ name)).
Qed.

(** SERVFAIL and an RCODE without a name of its own print differently. *)
Lemma RCodeError_Error_distinct_witness :
  RCodeError_Error {| Name := "example.org."; Code := dns.RcodeServerFailure |}
  <> RCodeError_Error {| Name := "example.org."; Code := 9 |}.
Proof.
  exact (RCodeError_Error_distinct "example.org." dns.RcodeServerFailure 9
           ltac:(discriminate)).
Defined.

End RCodeError_messages.

(** ** The lookups *)

Section resolver_lookups.

Import dnssec resolver_run lookup_run.

Context `{Lib} `{Client}.
Variable e : ExtResolver.
Variable ctx : context_Context.

(** A filter that keeps everything is a map. *)
Lemma omap_Some_map {A B : Type} (f : A -> B) (l : list A) :
  omap (fun a => Some (f a)) l = map f l.
Proof.
  induction l as [|a l IH]; cbn; by rewrite ?IH.
Qed.

(** [AuthLookupHost] on top of the two legs of the address lookup. *)
Lemma AuthLookupHost_exchange (host : string) (s : State) :
  AuthLookupHost e ctx host s
  = both_legs
      (single_query
         (fun answer => map (fun a => IPAddr_String (IP a)) (records_AAAA answer))
         (exchange e ctx (query (dns_Fqdn host) dns.TypeAAAA) s))
      (fun s1 =>
         single_query
           (fun answer => map (fun a => IPAddr_String (IP a)) (records_A answer))
           (exchange e ctx (query (dns_Fqdn host) dns.TypeA) s1)).
Proof.
  unfold AuthLookupHost, mbind, Go_bind.
  rewrite AuthLookupIPAddr_exchange. unfold both_legs, single_query.
  destruct (exchange e ctx (query (dns_Fqdn host) dns.TypeAAAA) s)
    as [[[r6 [err|]]|p] s1]; try reflexivity.
  { by destruct r6. }
  destruct r6 as [r6|]; [| reflexivity].
  destruct (exchange e ctx (query (dns_Fqdn host) dns.TypeA) s1)
    as [[[r4 [err|]]|p] s2]; try reflexivity.
  { by destruct r4. }
  destruct r4 as [r4|]; [| reflexivity].
  cbn. unfold mret, Go_ret. do 3 f_equal.
  rewrite (fold_left_append_omap (fun a => Some (IPAddr_String (IP a))))
    by done.
  by rewrite omap_Some_map, map_app.
Qed.

(** A response returned without error with the flag set is the answer,
    with the flag set, of a configured server on a loopback address. *)
Lemma exchange_flag_set (msg : dns.Msg) (s s' : State) (resp : dns.Msg) :
  exchange e ctx msg s = (Returned (Some resp, None), s') ->
  dns.AuthenticatedData resp = true ->
  exists (srv : string) (wire : dns.Msg) (w : World),
    In srv (dns.Servers (Cfg e))
    /\ isLoopback srv = true
    /\ cl_ExchangeContext ctx msg (address e srv) w
       = ((Some wire, None), world s')
    /\ dns.AuthenticatedData wire = true.
Proof.
  unfold exchange. intros Hrun Had.
  destruct (exchange_loop_success e ctx _ _ _ _ _ _ _ Hrun)
    as [(_ & Hnone & _) | (srv & wire & w & Hin & _ & Hx & _ & ->)];
    [discriminate |].
  exists srv, wire, w. unfold reported in Had.
  destruct (isLoopback srv); [done | discriminate Had].
Qed.

(** A lookup with one query reports the flag only as a loopback server
    set it. *)
Lemma single_query_flag_set {R : Type} (records : list dns.RR -> list R)
    (msg : dns.Msg) (s : State) :
  flag (single_query records (exchange e ctx msg s)) = true ->
  exists (srv : string) (wire : dns.Msg) (w : World),
    In srv (dns.Servers (Cfg e))
    /\ isLoopback srv = true
    /\ cl_ExchangeContext ctx msg (address e srv) w
       = ((Some wire, None),
          world (snd (single_query records (exchange e ctx msg s))))
    /\ dns.AuthenticatedData wire = true.
Proof.
  unfold flag, single_query.
  destruct (exchange e ctx msg s) as [[[r [err|]]|p] s'] eqn:Hrun; cbn;
    try discriminate.
  { destruct r; discriminate. }
  destruct r as [r|]; [| discriminate]. cbn. intros Had.
  by apply (exchange_flag_set msg s s' r).
Qed.

(** The combined lookup reports the flag only when both legs do. *)
Lemma both_legs_flag_set {R : Type}
    (leg1 : outcome (bool * list R * option error) * State)
    (leg2 : State -> outcome (bool * list R * option error) * State) :
  flag (both_legs leg1 leg2) = true ->
  flag leg1 = true /\ flag (leg2 (snd leg1)) = true.
Proof.
  unfold flag, both_legs.
  destruct leg1 as [[[[ad1 recs1] [err1|]]|p1] s1]; cbn; try discriminate.
  destruct (leg2 s1) as [[[[ad2 recs2] [err2|]]|p2] s2]; cbn;
    try discriminate.
  by intros [-> ->]%andb_true_iff.
Qed.

(** With remote servers only, a lookup with one query reports no flag. *)
Lemma single_query_remote {R : Type} (records : list dns.RR -> list R)
    (msg : dns.Msg) (s : State) :
  Forall (fun srv => isLoopback srv = false) (dns.Servers (Cfg e)) ->
  flag (single_query records (exchange e ctx msg s)) = false.
Proof.
  intros Hremote.
  destruct (flag (single_query records (exchange e ctx msg s))) eqn:Hflag;
    [| reflexivity].
  destruct (single_query_flag_set records msg s Hflag)
    as (srv & wire & w & Hin & Hloop & _).
  rewrite Forall_forall in Hremote.
  apply list_elem_of_In in Hin. specialize (Hremote srv Hin). congruence.
Qed.

(** The combined lookup reports no flag when its first leg cannot. *)
Lemma both_legs_remote {R : Type}
    (leg1 : outcome (bool * list R * option error) * State)
    (leg2 : State -> outcome (bool * list R * option error) * State) :
  flag leg1 = false -> flag (both_legs leg1 leg2) = false.
Proof.
  intros Hleg.
  destruct (flag (both_legs leg1 leg2)) eqn:Hflag; [| reflexivity].
  apply both_legs_flag_set in Hflag as [Hflag _]. congruence.
Qed.

(** X2: With no configured server on a loopback address, no lookup reports
    authenticated data, whatever the servers answer. *)
Theorem remote_servers_never_authenticated
    (Hremote : Forall (fun srv => isLoopback srv = false)
                 (dns.Servers (Cfg e))) :
  (forall addr s, flag (AuthLookupAddr e ctx addr s) = false)
  /\ (forall name s, flag (AuthLookupMX e ctx name s) = false)
  /\ (forall name s, flag (AuthLookupTXT e ctx name s) = false)
  /\ (forall host s, flag (AuthLookupIPAddr e ctx host s) = false)
  /\ (forall host s, flag (AuthLookupHost e ctx host s) = false)
  /\ (forall service network domain s,
        flag (AuthLookupTLSA e ctx service network domain s) = false).
Proof.
  repeat split.
  - intros addr s. rewrite AuthLookupAddr_exchange.
    destruct (dns_ReverseAddr addr) as [revAddr [err|]]; [reflexivity |].
    by apply single_query_remote.
  - intros name s. rewrite AuthLookupMX_exchange.
    by apply single_query_remote.
  - intros name s. rewrite AuthLookupTXT_exchange.
    by apply single_query_remote.
  - intros host s. rewrite AuthLookupIPAddr_exchange.
    apply both_legs_remote. by apply single_query_remote.
  - intros host s. rewrite AuthLookupHost_exchange.
    apply both_legs_remote. by apply single_query_remote.
  - intros service network domain s. rewrite AuthLookupTLSA_exchange.
    destruct (dns_TLSAName domain service network) as [name [err|]];
      [reflexivity |].
    by apply single_query_remote.
Qed.

(** X3: The combined address lookup reports authenticated data only when
    both of its queries were answered, with the flag set, by servers on
    loopback addresses. *)
Theorem AuthLookupIPAddr_authenticated (host : string) (s : State)
    (Hflag : flag (AuthLookupIPAddr e ctx host s) = true) :
  exists (srv6 srv4 : string) (wire6 wire4 : dns.Msg) (w6 w4 : World),
    In srv6 (dns.Servers (Cfg e)) /\ isLoopback srv6 = true
    /\ fst (cl_ExchangeContext ctx (query (dns_Fqdn host) dns.TypeAAAA)
              (address e srv6) w6) = (Some wire6, None)
    /\ dns.AuthenticatedData wire6 = true
    /\ In srv4 (dns.Servers (Cfg e)) /\ isLoopback srv4 = true
    /\ fst (cl_ExchangeContext ctx (query (dns_Fqdn host) dns.TypeA)
              (address e srv4) w4) = (Some wire4, None)
    /\ dns.AuthenticatedData wire4 = true.
Proof.
  rewrite AuthLookupIPAddr_exchange in Hflag.
  apply both_legs_flag_set in Hflag as [H6 H4].
  apply single_query_flag_set in H6
    as (srv6 & wire6 & w6 & Hin6 & Hloop6 & Hx6 & Had6).
  apply single_query_flag_set in H4
    as (srv4 & wire4 & w4 & Hin4 & Hloop4 & Hx4 & Had4).
  exists srv6, srv4, wire6, wire4, w6, w4.
  rewrite Hx6, Hx4. by repeat split.
Qed.

(** A lookup with one query returns its error alone. *)
Lemma single_query_error_alone {R : Type} (records : list dns.RR -> list R)
    (x : outcome (option dns.Msg * option error) * State) :
  error_alone (single_query records x).
Proof.
  unfold error_alone, single_query.
  destruct x as [[[[r|] [err|]]|p] s']; by cbn.
Qed.

(** The combined lookup returns its error alone. *)
Lemma both_legs_error_alone {R : Type}
    (leg1 : outcome (bool * list R * option error) * State)
    (leg2 : State -> outcome (bool * list R * option error) * State) :
  error_alone (both_legs leg1 leg2).
Proof.
  unfold error_alone, both_legs.
  destruct leg1 as [[[[ad1 recs1] [err1|]]|p1] s1]; cbn; try done.
  destruct (leg2 s1) as [[[[ad2 recs2] [err2|]]|p2] s2]; by cbn.
Qed.

(** X4: Whenever a lookup returns an error, the flag it returns is false
    and it returns no records: no partial answer leaves a lookup. *)
Theorem lookups_error_alone :
  (forall addr s, error_alone (AuthLookupAddr e ctx addr s))
  /\ (forall name s, error_alone (AuthLookupMX e ctx name s))
  /\ (forall name s, error_alone (AuthLookupTXT e ctx name s))
  /\ (forall host s, error_alone (AuthLookupIPAddr e ctx host s))
  /\ (forall host s, error_alone (AuthLookupHost e ctx host s))
  /\ (forall service network domain s,
        error_alone (AuthLookupTLSA e ctx service network domain s)).
Proof.
  repeat split.
  - intros addr s. rewrite AuthLookupAddr_exchange.
    destruct (dns_ReverseAddr addr) as [revAddr [err|]];
      [by cbn | apply single_query_error_alone].
  - intros name s. rewrite AuthLookupMX_exchange.
    apply single_query_error_alone.
  - intros name s. rewrite AuthLookupTXT_exchange.
    apply single_query_error_alone.
  - intros host s. rewrite AuthLookupIPAddr_exchange.
    apply both_legs_error_alone.
  - intros host s. rewrite AuthLookupHost_exchange.
    apply both_legs_error_alone.
  - intros service network domain s. rewrite AuthLookupTLSA_exchange.
    destruct (dns_TLSAName domain service network) as [name [err|]];
      [by cbn | apply single_query_error_alone].
Qed.

(** X5: [AuthLookupHost] agrees with [AuthLookupIPAddr]: the same exchanges,
    the same flag, the same error, and one string for each address, in
    the order of the addresses. *)
Theorem AuthLookupHost_agrees (host : string) (s : State) :
  AuthLookupHost e ctx host s
  = match AuthLookupIPAddr e ctx host s with
    | (Returned (_, _, Some err), s') => (Returned (false, [], Some err), s')
    | (Returned (ad, addrs, None), s') =>
        (Returned (ad, map (fun a => IPAddr_String (IP a)) addrs, None), s')
    | (Panicked p, s') => (Panicked p, s')
    end.
Proof.
  unfold AuthLookupHost, mbind, Go_bind.
  destruct (AuthLookupIPAddr e ctx host s)
    as [[[[ad addrs] [err|]]|p] s']; try reflexivity.
  unfold mret, Go_ret. do 3 f_equal.
  rewrite (fold_left_append_omap (fun a => Some (IPAddr_String (IP a))))
    by done.
  cbn. by rewrite omap_Some_map.
Qed.

(** The query of a lookup: recursion and authenticated data requested,
    one question of class INET, and the EDNS0 record for 4096 bytes with
    the DO bit clear. *)
Lemma query_shape (name : string) (t : Z) :
  dns.AuthenticatedData (query name t) = true
  /\ dns.RecursionDesired (query name t) = true
  /\ dns.Questions (query name t)
     = [ {| dns.Name := name; dns.Qtype := t; dns.Qclass := dns.ClassINET |} ]
  /\ dns.Extra (query name t) = [dns.RR_OPT 4096 false]
  /\ dns.Answer (query name t) = []
  /\ dns.Rcode (query name t) = dns.RcodeSuccess.
Proof.
  by repeat split.
Qed.

(** The exchanges of a lookup with one query. *)
Lemma single_query_calls {R : Type} (records : list dns.RR -> list R)
    (msg : dns.Msg) (s : State) :
  exists k : nat,
    (k <= length (dns.Servers (Cfg e)))%nat /\
    calls (snd (single_query records (exchange e ctx msg s)))
    = calls s ++ map (call e msg) (take k (dns.Servers (Cfg e))).
Proof.
  rewrite single_query_state. apply exchange_calls.
Qed.

(** X6: A lookup with one query starts at most one exchange with each
    configured server, in the order of the list, each with that query
    at the server's address and the configured port; a lookup whose
    subject does not parse starts none. *)
Theorem lookups_ask_each_server_once :
  (forall name s, exists k : nat,
     (k <= length (dns.Servers (Cfg e)))%nat /\
     calls (snd (AuthLookupMX e ctx name s))
     = calls s ++ map (call e (query (dns_Fqdn name) dns.TypeMX))
                    (take k (dns.Servers (Cfg e))))
  /\ (forall name s, exists k : nat,
        (k <= length (dns.Servers (Cfg e)))%nat /\
        calls (snd (AuthLookupTXT e ctx name s))
        = calls s ++ map (call e (query (dns_Fqdn name) dns.TypeTXT))
                       (take k (dns.Servers (Cfg e))))
  /\ (forall addr s, exists k : nat,
        (k <= length (dns.Servers (Cfg e)))%nat /\
        (snd (dns_ReverseAddr addr) <> None -> k = 0%nat) /\
        calls (snd (AuthLookupAddr e ctx addr s))
        = calls s ++ map (call e (query (fst (dns_ReverseAddr addr))
                                    dns.TypePTR))
                       (take k (dns.Servers (Cfg e))))
  /\ (forall service network domain s, exists k : nat,
        (k <= length (dns.Servers (Cfg e)))%nat /\
        (snd (dns_TLSAName domain service network) <> None -> k = 0%nat) /\
        calls (snd (AuthLookupTLSA e ctx service network domain s))
        = calls s
          ++ map (call e (query (dns_Fqdn
                                   (fst (dns_TLSAName domain service network)))
                            dns.TypeTLSA))
               (take k (dns.Servers (Cfg e))))
  /\ (forall name t,
        dns.AuthenticatedData (query name t) = true
        /\ dns.Questions (query name t)
           = [ {| dns.Name := name; dns.Qtype := t;
                  dns.Qclass := dns.ClassINET |} ]
        /\ dns.Extra (query name t) = [dns.RR_OPT 4096 false])
  /\ (forall msg srv,
        call_msg (call e msg srv) = msg
        /\ call_addr (call e msg srv)
           = net_JoinHostPort srv (dns.Port (Cfg e))).
Proof.
  split; [| split; [| split; [| split; [| split]]]].
  - intros name s. rewrite AuthLookupMX_exchange. apply single_query_calls.
  - intros name s. rewrite AuthLookupTXT_exchange. apply single_query_calls.
  - intros addr s. rewrite AuthLookupAddr_exchange.
    destruct (dns_ReverseAddr addr) as [revAddr [err|]]; cbn [fst snd].
    + exists 0%nat. cbn. rewrite app_nil_r. repeat split; try done; lia.
    + destruct (single_query_calls records_PTR (query revAddr dns.TypePTR) s)
        as (k & Hk & Hc).
      exists k. by repeat split.
  - intros service network domain s. rewrite AuthLookupTLSA_exchange.
    destruct (dns_TLSAName domain service network) as [name [err|]];
      cbn [fst snd].
    + exists 0%nat. cbn. rewrite app_nil_r. repeat split; try done; lia.
    + destruct (single_query_calls records_TLSA
                  (query (dns_Fqdn name) dns.TypeTLSA) s) as (k & Hk & Hc).
      exists k. by repeat split.
  - intros name t. by repeat split.
  - intros msg srv. by split.
Qed.

(** The loop reads the resolver's port and nothing else of it. *)
Lemma exchange_loop_port (e' : ExtResolver) (msg : dns.Msg)
    (servers : list string) :
  dns.Port (Cfg e') = dns.Port (Cfg e) ->
  forall resp0 err0 s,
    exchange_loop e' ctx msg servers resp0 err0 s
    = exchange_loop e ctx msg servers resp0 err0 s.
Proof.
  intros Hport.
  induction servers as [|srv rest IH]; intros resp0 err0 s; [reflexivity |].
  rewrite !exchange_loop_step. unfold address, logged, call, address.
  rewrite Hport.
  destruct (cl_ExchangeContext ctx msg _ (world s)) as [[r err] w].
  cbn zeta. destruct err as [err|]; [destruct r; apply IH |].
  destruct r as [r|]; [| reflexivity].
  destruct (dns.Rcode r =? dns.RcodeSuccess); [reflexivity |].
  destruct (dns.Questions msg); [reflexivity | apply IH].
Qed.

(** X7: Fail-over: a first server whose exchange fails, or whose answer has
    an RCODE other than success, counts for nothing when other servers
    follow: the lookup is the lookup of the resolver without it, run
    after that one exchange. *)
Theorem exchange_without_failed_server (msg : dns.Msg) (q : dns.Question)
    (qs : list dns.Question) (srv : string) (rest : list string)
    (s : State) (a : option dns.Msg * option error) (w : World)
    (Hq : dns.Questions msg = q :: qs)
    (Hservers : dns.Servers (Cfg e) = srv :: rest)
    (Hrest : rest <> [])
    (Hx : cl_ExchangeContext ctx msg (address e srv) (world s) = (a, w))
    (Hnil : a <> (None, None))
    (Hfailed : succeeded {| server := srv; answer := a; after := w |} = false) :
  exchange e ctx msg s
  = exchange (with_servers e rest) ctx msg (logged e msg srv w s).
Proof.
  unfold exchange. rewrite Hservers. cbn [with_servers Cfg dns.Servers].
  rewrite (exchange_loop_port (with_servers e rest)) by reflexivity.
  rewrite exchange_loop_step, Hx. cbn zeta.
  unfold succeeded in Hfailed. cbn in Hfailed.
  destruct a as [r [err|]].
  - destruct r; by apply exchange_loop_forgets.
  - destruct r as [r|]; [| congruence].
    rewrite Hfailed, Hq. by apply exchange_loop_forgets.
Qed.

(** X8: When no server succeeds and the last one asked answered with a
    response, the caller gets that response together with the
    [RCodeError] of its RCODE for the queried name, whatever the servers
    before it did: the error is a not-found exactly for NXDOMAIN and
    temporary exactly for SERVFAIL. *)
Theorem exchange_exhausted_rcode (msg : dns.Msg) (q : dns.Question)
    (qs : list dns.Question) (s : State) (a : Attempt) (r : dns.Msg)
    (Hq : dns.Questions msg = q :: qs)
    (Hc : answers_or_fails)
    (Hnone : list_find (fun a => succeeded a = true)
               (attempts e ctx msg (dns.Servers (Cfg e)) (world s)) = None)
    (Hlast : last (attempts e ctx msg (dns.Servers (Cfg e)) (world s))
             = Some a)
    (Hanswer : answer a = (Some r, None)) :
  let err := {| Name := dns.Name q; Code := dns.Rcode r |} in
  fst (exchange e ctx msg s) = Returned (Some r, Some (ErrRCode err))
  /\ dns.Rcode r <> dns.RcodeSuccess
  /\ (IsNotFound (Some (ErrRCode err)) = true
      <-> dns.Rcode r = dns.RcodeNameError)
  /\ (RCodeError_Temporary err = true
      <-> dns.Rcode r = dns.RcodeServerFailure)
  /\ ~ (IsNotFound (Some (ErrRCode err)) = true
        /\ RCodeError_Temporary err = true).
Proof.
  intros err.
  assert (Hrc : (dns.Rcode r =? dns.RcodeSuccess) = false).
  { apply list_find_None in Hnone. rewrite Forall_forall in Hnone.
    assert (Hin : a ∈ attempts e ctx msg (dns.Servers (Cfg e)) (world s)).
    { apply last_Some in Hlast as [l' ->]. set_solver. }
    specialize (Hnone a Hin). unfold succeeded in Hnone.
    rewrite Hanswer in Hnone. by destruct (dns.Rcode r =? dns.RcodeSuccess). }
  unfold exchange.
  rewrite (exchange_loop_closed_form e ctx msg q qs _ Hq Hc), Hnone, Hlast.
  unfold recorded_error, IsNotFound, RCodeError_Temporary, err.
  rewrite Hanswer, Hrc. cbn.
  unfold dns.RcodeNameError, dns.RcodeServerFailure, dns.RcodeSuccess in *.
  repeat split; intros ?; lia.
Qed.

End resolver_lookups.

(** ** The lookups on the example network *)

Section resolver_lookups_examples.

Import dnssec resolver_run lookup_run example.

(** The server across the network answers with the flag set; the MX and
    host lookups through it report the records and no flag. *)
Lemma remote_servers_never_authenticated_witness :
  let e := resolver ["192.0.2.53"] in
  fst (@AuthLookupMX lib (client true) e tt "example.org" (start true))
    = Returned (false, [ {| Host := "mx.example.org."; Pref := 10 |} ], None)
  /\ @flag (client true) _
       (@AuthLookupMX lib (client true) e tt "example.org" (start true))
     = false
  /\ @flag (client true) _
       (@AuthLookupHost lib (client true) e tt "example.org" (start true))
     = false.
Proof.
  intros e.
  assert (Hremote : Forall (fun srv => @isLoopback lib srv = false)
                      (dns.Servers (Cfg e))).
  { constructor; [vm_compute; reflexivity | constructor]. }
  destruct (@remote_servers_never_authenticated lib (client true) e tt Hremote)
    as (_ & Hmx & _ & _ & Hhost & _).
  split; [vm_compute; reflexivity |].
  exact (conj (Hmx "example.org" (start true))
              (Hhost "example.org" (start true))).
Defined.

(** Past a server that is down, the resolver on the local host answers
    both queries with the flag set, and the lookup reports it. *)
Lemma AuthLookupIPAddr_authenticated_witness :
  let e := resolver ["192.0.2.1"; "127.0.0.1"] in
  @flag (client true) _
    (@AuthLookupIPAddr lib (client true) e tt "example.org" (start true))
  = true
  /\ exists (srv6 srv4 : string) (wire6 wire4 : dns.Msg) (w6 w4 : bool),
       In srv6 (dns.Servers (Cfg e)) /\ @isLoopback lib srv6 = true
       /\ fst (example.ExchangeContext true tt
                 (query (Fqdn "example.org") dns.TypeAAAA)
                 (address e srv6) w6) = (Some wire6, None)
       /\ dns.AuthenticatedData wire6 = true
       /\ In srv4 (dns.Servers (Cfg e)) /\ @isLoopback lib srv4 = true
       /\ fst (example.ExchangeContext true tt
                 (query (Fqdn "example.org") dns.TypeA)
                 (address e srv4) w4) = (Some wire4, None)
       /\ dns.AuthenticatedData wire4 = true.
Proof.
  intros e.
  assert (Hflag : @flag (client true) _
            (@AuthLookupIPAddr lib (client true) e tt "example.org"
               (start true)) = true) by (vm_compute; reflexivity).
  split; [exact Hflag |].
  exact (@AuthLookupIPAddr_authenticated lib (client true) e tt "example.org"
           (start true) Hflag).
Defined.

(** A first server that answers SERVFAIL, and the local resolver after
    it. *)
Lemma exchange_without_failed_server_witness :
  let msg := query "example.org." dns.TypeTXT in
  let e := resolver ["192.0.2.2"; "127.0.0.1"] in
  @exchange lib (client true) e tt msg (start true)
  = @exchange lib (client true) (with_servers e ["127.0.0.1"]) tt msg
      (@logged (client true) e msg "192.0.2.2" false (start true)).
Proof.
  intros msg e.
  assert (Hx : example.ExchangeContext true tt msg (address e "192.0.2.2")
                 false
               = ((Some (reply msg dns.RcodeServerFailure false), None), false))
    by (vm_compute; reflexivity).
  exact (@exchange_without_failed_server lib (client true) e tt msg
           {| dns.Name := "example.org."; dns.Qtype := dns.TypeTXT;
              dns.Qclass := dns.ClassINET |} [] "192.0.2.2" ["127.0.0.1"]
           (start true) _ false eq_refl eq_refl
           ltac:(discriminate) Hx ltac:(discriminate)
           ltac:(vm_compute; reflexivity)).
Defined.

(** A server that is down, then one that answers SERVFAIL: the caller
    gets the temporary [RCodeError]. *)
Lemma exchange_exhausted_rcode_witness :
  let msg := query "nowhere.example." dns.TypeMX in
  let e := resolver ["192.0.2.1"; "192.0.2.2"] in
  let r := reply msg dns.RcodeServerFailure false in
  let err := {| Name := "nowhere.example."; Code := dns.RcodeServerFailure |} in
  fst (@exchange lib (client true) e tt msg (start true))
    = Returned (Some r, Some (ErrRCode err))
  /\ RCodeError_Temporary err = true
  /\ IsNotFound (Some (ErrRCode err)) = false.
Proof.
  intros msg e r err.
  assert (Hnone : list_find (fun a => @succeeded (client true) a = true)
                    (@attempts (client true) e tt msg (dns.Servers (Cfg e))
                       (world (start true))) = None)
    by (vm_compute; reflexivity).
  assert (Hlast : last (@attempts (client true) e tt msg (dns.Servers (Cfg e))
                          (world (start true)))
                  = Some (@Build_Attempt (client true) "192.0.2.2"
                            (Some r, None) false))
    by (vm_compute; reflexivity).
  destruct (@exchange_exhausted_rcode lib (client true) e tt msg
              {| dns.Name := "nowhere.example."; dns.Qtype := dns.TypeMX;
                 dns.Qclass := dns.ClassINET |} [] (start true) _ r
              eq_refl (example_client_answers_or_fails true) Hnone Hlast
              eq_refl) as (Hrun & _ & _ & Htemp & _).
  split; [exact Hrun |].
  split; [exact (proj2 Htemp eq_refl) | reflexivity].
Defined.

End resolver_lookups_examples.

(** ** The constructor *)

Section startup_properties.

Import dnssec resolver_run startup.

Context `{Lib} `{Client} `{Env}.

(** X9: A resolver built with an override server has that one server and
    its port, so that, with a client that returns a response or an
    error, its lookups return. *)
Theorem NewExtResolver_override (overrideServ : string) (cl : dns_Client)
    (e : ExtResolver)
    (Hset : overrideServ <> "" /\ overrideServ <> "system-default")
    (Hbuilt : NewExtResolver overrideServ = Built cl e) :
  (exists cfg : dns.ClientConfig,
     dns_ClientConfigFromFile "/etc/resolv.conf" = (Some cfg, None)
     /\ dns.Timeout (Cfg e) = dns.Timeout cfg)
  /\ net_SplitHostPort overrideServ
     = (hd "" (dns.Servers (Cfg e)), dns.Port (Cfg e), None)
  /\ length (dns.Servers (Cfg e)) = 1%nat
  /\ (answers_or_fails ->
      forall ctx name s,
        returns (AuthLookupMX e ctx name s)
        /\ returns (AuthLookupTXT e ctx name s)
        /\ returns (AuthLookupIPAddr e ctx name s)).
Proof.
  destruct Hset as [Hne1 Hne2].
  unfold NewExtResolver in Hbuilt.
  destruct (dns_ClientConfigFromFile "/etc/resolv.conf") as [cfg [err|]];
    [discriminate |].
  apply String.eqb_neq in Hne1, Hne2. rewrite Hne1, Hne2 in Hbuilt.
  cbn [negb andb] in Hbuilt.
  destruct (net_SplitHostPort overrideServ) as [[host port] [err|]];
    [discriminate |].
  destruct cfg as [cfg|]; [| discriminate].
  injection Hbuilt as <- <-.
  cbn [Cfg dns.Servers dns.Port dns.Timeout hd length].
  split; [by exists cfg |]. split; [done |]. split; [done |].
  intros Hc ctx name s.
  rewrite AuthLookupMX_exchange, AuthLookupTXT_exchange,
    AuthLookupIPAddr_exchange.
  repeat split.
  - by apply single_query_exchange_returns.
  - by apply single_query_exchange_returns.
  - unfold both_legs.
    set (e0 := {| Cfg := _ |}).
    destruct (single_query_exchange_returns e0 ctx records_AAAA
                (dns_Fqdn name) dns.TypeAAAA s ltac:(done) Hc)
      as [[[ad6 recs6] err6] H6].
    destruct (single_query records_AAAA _) as [o6 s1]. cbn in H6. subst o6.
    destruct err6 as [err6|]; [by eexists |].
    destruct (single_query_exchange_returns e0 ctx records_A
                (dns_Fqdn name) dns.TypeA s1 ltac:(done) Hc)
      as [[[ad4 recs4] err4] H4].
    destruct (single_query records_A _) as [o4 s2]. cbn in H4. subst o4.
    destruct err4; by eexists.
Qed.


(** X11: Without an override the resolver is built on the configuration read
    from the file, as it is: the constructor does not ask for a server.
    On a configuration that names none, it builds a resolver whose
    lookups panic. *)
Theorem NewExtResolver_system_default (overrideServ : string)
    (cfg : dns.ClientConfig)
    (Hdefault : overrideServ = "" \/ overrideServ = "system-default")
    (Hfile : dns_ClientConfigFromFile "/etc/resolv.conf" = (Some cfg, None)) :
  exists cl : dns_Client,
    NewExtResolver overrideServ = Built cl {| Cfg := cfg |}
    /\ (dns.Servers cfg = [] ->
        forall ctx name s,
          AuthLookupMX {| Cfg := cfg |} ctx name s
          = (Panicked NilPointerDereference, s)
          /\ AuthLookupTXT {| Cfg := cfg |} ctx name s
             = (Panicked NilPointerDereference, s)).
Proof.
  unfold NewExtResolver. rewrite Hfile.
  assert (Hoff : negb (String.eqb overrideServ "")
                 && negb (String.eqb overrideServ "system-default") = false).
  { destruct Hdefault as [-> | ->]; reflexivity. }
  rewrite Hoff. eexists. split; [reflexivity |].
  intros Hnone ctx name s.
  rewrite AuthLookupMX_exchange, AuthLookupTXT_exchange.
  by rewrite !exchange_no_servers.
Qed.

(** X12: The constructor ends with an error exactly when the file cannot be
    read, an override notwithstanding, and panics with an error exactly
    when the file was read and the override, set, does not split into
    host and port. *)
Theorem NewExtResolver_failures (overrideServ : string) (err : error) :
  (NewExtResolver overrideServ = Failed err
   <-> snd (dns_ClientConfigFromFile "/etc/resolv.conf") = Some err)
  /\ (NewExtResolver overrideServ = PanicError err
      <-> snd (dns_ClientConfigFromFile "/etc/resolv.conf") = None
          /\ overrideServ <> "" /\ overrideServ <> "system-default"
          /\ snd (net_SplitHostPort overrideServ) = Some err).
Proof.
  unfold NewExtResolver.
  destruct (dns_ClientConfigFromFile "/etc/resolv.conf") as [cfg [ferr|]];
    cbn [snd].
  { split; split; try congruence. by intros [? _]. }
  destruct (String.eqb_spec overrideServ "") as [-> | Hne1]; cbn [negb andb].
  { destruct cfg; split; split; try discriminate; by intros (_ & ? & _). }
  destruct (String.eqb_spec overrideServ "system-default") as [-> | Hne2];
    cbn [negb andb].
  { destruct cfg; split; split; try discriminate; by intros (_ & _ & ? & _). }
  destruct (net_SplitHostPort overrideServ) as [[host port] [serr|]];
    cbn [snd].
  - split; split; try discriminate.
    + by intros [= ->].
    + by intros (_ & _ & _ & [= ->]).
  - destruct cfg; split; split; try discriminate;
      by intros (_ & _ & _ & ?).
Qed.

End startup_properties.

Section startup_examples.

Import dnssec resolver_run startup startup_example example.

(** An override to the local resolver on port 5353, on a host whose
    resolv.conf names no server. *)
Lemma NewExtResolver_override_witness :
  let cl :=
    {| Dialer := Some {| Dialer_Timeout := 5000000000 |} |} in
  let e :=
    {| Cfg := {| dns.Servers := ["127.0.0.1"]; dns.Port := "5353";
                 dns.Timeout := 5 |} |} in
  @NewExtResolver (env []) "127.0.0.1:5353" = Built cl e
  /\ length (dns.Servers (Cfg e)) = 1%nat
  /\ (forall ctx name s,
        @returns (client true) _ (@AuthLookupMX lib (client true) e ctx name s)).
Proof.
  intros cl e.
  assert (Hbuilt : @NewExtResolver (env []) "127.0.0.1:5353" = Built cl e)
    by (vm_compute; reflexivity).
  assert (Hset : "127.0.0.1:5353" <> "" /\ "127.0.0.1:5353" <> "system-default")
    by (split; discriminate).
  destruct (@NewExtResolver_override lib (client true) (env [])
              "127.0.0.1:5353" cl e Hset Hbuilt)
    as (_ & _ & Hone & Hsafe).
  split; [exact Hbuilt |]. split; [exact Hone |].
  intros ctx name s.
  exact (proj1 (Hsafe (example_client_answers_or_fails true) ctx name s)).
Defined.


(** A resolv.conf that names no server gives a resolver whose MX lookup
    panics. *)
Lemma NewExtResolver_system_default_witness :
  exists cl : dns_Client,
    @NewExtResolver (env []) "" = Built cl (resolver [])
    /\ @AuthLookupMX lib (client true) (resolver []) tt "example.org"
         (start true)
       = (Panicked NilPointerDereference, start true).
Proof.
  assert (Hfile : @dns_ClientConfigFromFile (env []) "/etc/resolv.conf"
                  = (Some (Cfg (resolver [])), None))
    by (vm_compute; reflexivity).
  destruct (@NewExtResolver_system_default lib (client true) (env []) ""
              (Cfg (resolver [])) (or_introl eq_refl) Hfile)
    as (cl & Hbuilt & Hpanic).
  exists cl. split; [exact Hbuilt |].
  exact (proj1 (Hpanic eq_refl tt "example.org" (start true))).
Defined.

End startup_examples.

(** * Further properties of the verify_dkim check *)

Section verify_dkim_more.

Import authres verify_dkim check_run verdict_run.

Context `{Lib}.

(** Appending one record, then more. *)
Lemma append_add_records (res : maddy_module.CheckResult) (r : DKIMResult)
    (rs : list DKIMResult) :
  add_records (append_AuthResult res r) rs = add_records res (r :: rs).
Proof.
  unfold add_records, append_AuthResult. cbn. by rewrite <- app_assoc.
Qed.

(** The loop in closed form, for the nil error it runs with: one record
    for each verification, in order, and the flag raised by every
    verification without an error. *)
Lemma CheckBody_loop_closed_form (c : Check)
    (verifications : list dkim.Verification) :
  forall (goodSigs : bool) (res : maddy_module.CheckResult),
  fst (CheckBody_loop c None verifications goodSigs res)
  = inr (goodSigs || existsb verified verifications,
         add_records res (map (record_of c) verifications)).
Proof.
  induction verifications as [|verif rest IH]; intros goodSigs res.
  - cbn. rewrite orb_false_r. unfold add_records. rewrite app_nil_r.
    by destruct res.
  - cbn [existsb map]. unfold verified at 1, record_of at 1.
    destruct (dkim.Err verif) as [verif_Err|] eqn:Herr.
    + rewrite (CheckBody_loop_error_is_fail _ _ _ _ _ _ Herr), IH.
      by rewrite append_add_records.
    + rewrite (CheckBody_loop_valid _ _ _ _ _ _ Herr), IH.
      rewrite append_add_records. cbn [orb]. by rewrite orb_true_r.
Qed.

(** The events of the loop are log lines. *)
Lemma CheckBody_loop_logs (c : Check) (err : option dkim.error)
    (verifications : list dkim.Verification) :
  forall (goodSigs : bool) (res : maddy_module.CheckResult),
  forallb is_log (snd (CheckBody_loop c err verifications goodSigs res))
  = true.
Proof.
  induction verifications as [|verif rest IH]; intros goodSigs res;
    [reflexivity |].
  cbn [CheckBody_loop]. unfold mbind, Traced_bind.
  destruct (dkim.Err verif) as [verif_Err|].
  - destruct (negb _ || negb _); cbn [fst snd emit mret Traced_ret];
      destruct (dkim.IsTempFail err);
      try destruct (negb (failOpen c)); cbn [fst snd mret Traced_ret];
      try reflexivity;
      match goal with
      | |- context [CheckBody_loop c err rest ?g ?r] =>
          specialize (IH g r); destruct (CheckBody_loop c err rest g r)
      end; cbn in *; done.
  - cbn [fst snd emit].
    destruct (set_fold _ _ _) as [val reason].
    destruct (if (0 <=? dkim.BodyLength verif) && negb (allowBodySubset c)
              then _ else _) as [val' reason'].
    match goal with
    | |- context [CheckBody_loop c err rest ?g ?r] =>
        specialize (IH g r); destruct (CheckBody_loop c err rest g r)
    end; cbn in *; done.
Qed.

(** [CheckBody] on a signed message whose body opens and whose
    verification runs: the records of the verifications, returned as
    they are when one of them has no error, and handed to the
    broken-signature action otherwise. *)
Lemma CheckBody_verified (c : Check) (header : Header) (body : Buffer)
    (bodyRdr : string) (verifications : list dkim.Verification) :
  Header_Has header "DKIM-Signature" = true ->
  Open body = (bodyRdr, None) ->
  dkim_Verify (textproto_WriteHeader header +:+ bodyRdr)
    = (verifications, None) ->
  fst (CheckBody c header body)
  = if existsb verified verifications
    then add_records maddy_module.zero (map (record_of c) verifications)
    else check.Apply (brokenSigAction c)
           (set_Reason
              (add_records maddy_module.zero
                 (map (record_of c) verifications))
              no_passing_signatures).
Proof.
  intros Hhas Hopen Hverify. unfold CheckBody.
  rewrite Hhas. cbn [negb]. unfold mbind, Traced_bind.
  cbn [emit fst snd mret Traced_ret]. rewrite Hopen, Hverify.
  pose proof (CheckBody_loop_closed_form c verifications false
                maddy_module.zero) as Hloop.
  destruct (CheckBody_loop c None verifications false maddy_module.zero)
    as [out t]. cbn [fst] in Hloop. subst out. cbn [orb].
  by destruct (existsb verified verifications).
Qed.

(** X13: A verification without an error is recorded as pass exactly when
    the signature covers every required field and either has no body
    length limit or body subsets are allowed; otherwise it is recorded
    as permerror.  The record carries the signature's domain and
    identifier. *)
Theorem valid_signature_record (c : Check) (err : option dkim.error)
    (verif : dkim.Verification) (goodSigs : bool)
    (res : maddy_module.CheckResult) (fields : list string)
    (Hvalid : dkim.Err verif = None)
    (Hinit : requiredFields c = Init_requiredFields fields) :
  exists (goodSigs' : bool) (r : DKIMResult),
    fst (CheckBody_loop c err [verif] goodSigs res)
    = inr (goodSigs', append_AuthResult res r)
    /\ Domain r = dkim.Domain verif
    /\ Identifier r = dkim.Identifier verif
    /\ (Value r = ResultPass \/ Value r = ResultPermError)
    /\ (Value r = ResultPass <->
        (forall field, In field fields ->
           exists key, In key (dkim.HeaderKeys verif)
             /\ CanonicalMIMEHeaderKey key = CanonicalMIMEHeaderKey field)
        /\ (dkim.BodyLength verif < 0 \/ allowBodySubset c = true)).
Proof.
  rewrite (CheckBody_loop_valid c err verif [] goodSigs res Hvalid).
  cbn [CheckBody_loop mret Traced_ret fst].
  eexists true, _. split; [reflexivity |].
  cbn [Domain Identifier Value]. split; [done |]. split; [done |].
  assert (Hcover :
    requiredFields c ⊆
      fold_left
        (fun (m : gset string) key => {[ CanonicalMIMEHeaderKey key ]} ∪ m)
        (dkim.HeaderKeys verif) ∅
    <-> forall field, In field fields ->
          exists key, In key (dkim.HeaderKeys verif)
            /\ CanonicalMIMEHeaderKey key = CanonicalMIMEHeaderKey field).
  { rewrite Hinit. unfold Init_requiredFields. split.
    - intros Hsub field Hin.
      assert (Hreq : CanonicalMIMEHeaderKey field ∈
                fold_left
                  (fun (m : gset string) key =>
                     {[ CanonicalMIMEHeaderKey key ]} ∪ m) fields ∅).
      { apply signed_fields_spec. right. by apply in_map. }
      apply Hsub, signed_fields_spec in Hreq as [Hreq | Hreq];
        [by apply elem_of_empty in Hreq |].
      apply in_map_iff in Hreq as (key & Hkey & Hin'). by exists key.
    - intros Hall x Hx.
      apply signed_fields_spec in Hx as [Hx | Hx];
        [by apply elem_of_empty in Hx |].
      apply in_map_iff in Hx as (field & <- & Hin).
      destruct (Hall field Hin) as (key & Hkey & <-).
      apply signed_fields_spec. right. by apply in_map. }
  destruct (Z.leb_spec 0 (dkim.BodyLength verif)) as [Hlen | Hlen];
    destruct (allowBodySubset c); cbn [negb andb];
    try destruct (decide (requiredFields c ⊆ _)) as [Hsub | Hnsub];
    (split; [auto |]); split; try done; try tauto; try lia;
    try (intros _; split; [by apply Hcover | auto; lia]);
    try (intros [Hall _]; by apply Hcover in Hall);
    try (intros [_ [? | ?]]; [lia | done]).
Qed.

(** Records carry the domains and identifiers of their verifications. *)
Lemma record_of_domains (c : Check) (verifications : list dkim.Verification) :
  map Domain (map (record_of c) verifications)
    = map dkim.Domain verifications
  /\ map Identifier (map (record_of c) verifications)
     = map dkim.Identifier verifications.
Proof.
  split; rewrite map_map; apply map_ext; intros verif; unfold record_of;
    by destruct (dkim.Err verif).
Qed.

(** X14: A message with a signature that verified and passed both gates is
    returned without reason, rejection or quarantine, whatever the
    configured actions; its records are one for each signature, in the
    order and with the domains and identifiers of the verifications, and
    the record of that signature is a pass.  Stated for a check that
    fails open or a message none of whose signatures failed
    temporarily. *)
Theorem CheckBody_accepts_passing_signature (c : Check) (header : Header)
    (body : Buffer) (bodyRdr : string)
    (verifications : list dkim.Verification) (verif : dkim.Verification)
    (Hhas : Header_Has header "DKIM-Signature" = true)
    (Hopen : Open body = (bodyRdr, None))
    (Hverify : dkim_Verify (textproto_WriteHeader header +:+ bodyRdr)
               = (verifications, None))
    (Hopen_or_settled :
       failOpen c = true
       \/ Forall (fun v => failed_temporarily v = false) verifications)
    (Hin : In verif verifications)
    (Hvalid : dkim.Err verif = None)
    (Hcovered : requiredFields c ⊆ signedFields verif)
    (Hlength : dkim.BodyLength verif < 0 \/ allowBodySubset c = true) :
  maddy_module.Reason (fst (CheckBody c header body)) = None
  /\ maddy_module.Reject (fst (CheckBody c header body)) = false
  /\ maddy_module.Quarantine (fst (CheckBody c header body)) = false
  /\ map Domain (maddy_module.AuthResult (fst (CheckBody c header body)))
     = map dkim.Domain verifications
  /\ map Identifier (maddy_module.AuthResult (fst (CheckBody c header body)))
     = map dkim.Identifier verifications
  /\ In {| Value := ResultPass; Reason := "";
           Domain := dkim.Domain verif;
           Identifier := dkim.Identifier verif |}
       (maddy_module.AuthResult (fst (CheckBody c header body))).
Proof.
  rewrite (CheckBody_verified c header body bodyRdr verifications
             Hhas Hopen Hverify).
  assert (Hex : existsb verified verifications = true).
  { apply existsb_exists. exists verif. split; [done |].
    unfold verified. by rewrite Hvalid. }
  rewrite Hex. cbn.
  destruct (record_of_domains c verifications) as [Hdom Hid].
  repeat split; try done.
  apply in_map_iff. exists verif. split; [| done].
  unfold record_of. rewrite Hvalid.
  destruct (decide (requiredFields c ⊆ signedFields verif)); [| done].
  destruct Hlength as [Hlen | Hallow].
  - destruct (Z.leb_spec 0 (dkim.BodyLength verif)); [lia | reflexivity].
  - rewrite Hallow. cbn [negb]. rewrite andb_false_r. reflexivity.
Qed.

(** X15: A signed message none of whose signatures verified, one with no
    verification at all included, is handed to the broken-signature
    action with the reason "No passing DKIM signatures" (550, 5.7.20);
    the result handed over has one record for each signature, in order,
    none of them a pass.  Stated for a check that fails open or a
    message none of whose signatures failed temporarily. *)
Theorem CheckBody_no_verified_signature (c : Check) (header : Header)
    (body : Buffer) (bodyRdr : string)
    (verifications : list dkim.Verification)
    (Hhas : Header_Has header "DKIM-Signature" = true)
    (Hopen : Open body = (bodyRdr, None))
    (Hverify : dkim_Verify (textproto_WriteHeader header +:+ bodyRdr)
               = (verifications, None))
    (Hopen_or_settled :
       failOpen c = true
       \/ Forall (fun v => failed_temporarily v = false) verifications)
    (Hnone : Forall (fun v => dkim.Err v <> None) verifications) :
  exists res : maddy_module.CheckResult,
    fst (CheckBody c header body) = check.Apply (brokenSigAction c) res
    /\ maddy_module.Reason res = Some no_passing_signatures
    /\ maddy_module.Reject res = false
    /\ maddy_module.Quarantine res = false
    /\ map Domain (maddy_module.AuthResult res)
       = map dkim.Domain verifications
    /\ map Identifier (maddy_module.AuthResult res)
       = map dkim.Identifier verifications
    /\ Forall (fun r => Value r <> ResultPass) (maddy_module.AuthResult res).
Proof.
  rewrite (CheckBody_verified c header body bodyRdr verifications
             Hhas Hopen Hverify).
  assert (Hex : existsb verified verifications = false).
  { apply not_true_is_false. intros (v & Hv & Hok)%existsb_exists.
    rewrite Forall_forall in Hnone. apply list_elem_of_In in Hv.
    specialize (Hnone v Hv). unfold verified in Hok.
    by destruct (dkim.Err v). }
  rewrite Hex. eexists. split; [reflexivity |]. cbn.
  destruct (record_of_domains c verifications) as [Hdom Hid].
  repeat split; try done.
  apply Forall_forall. intros r (v & <- & Hv)%list_elem_of_In%in_map_iff.
  rewrite Forall_forall in Hnone. apply list_elem_of_In in Hv.
  specialize (Hnone v Hv). unfold record_of.
  by destruct (dkim.Err v).
Qed.

(** X16: When the body does not open, or the verifier itself fails, the
    check rejects with a temporary error and no records, and neither
    the configured actions nor the fail-open switch enter into it: the
    result is the same for every configuration.  On a body that does
    not open the verifier is not called. *)
Theorem CheckBody_internal_failure (c : Check) (header : Header)
    (body : Buffer) (err : dkim.error)
    (Hhas : Header_Has header "DKIM-Signature" = true)
    (Hfailure :
       snd (Open body) = Some err
       \/ (snd (Open body) = None
           /\ snd (dkim_Verify (textproto_WriteHeader header
                                +:+ fst (Open body))) = Some err)) :
  maddy_module.Reject (fst (CheckBody c header body)) = true
  /\ maddy_module.Quarantine (fst (CheckBody c header body)) = false
  /\ maddy_module.AuthResult (fst (CheckBody c header body)) = []
  /\ (exists fields,
        maddy_module.Reason (fst (CheckBody c header body))
        = Some (exterrors.WithTemporary err fields true)
        /\ fields !! "check" = Some "verify_dkim")
  /\ (forall c' : Check, CheckBody c' header body = CheckBody c header body)
  /\ (snd (Open body) = Some err ->
      snd (CheckBody c header body) = [body_Open]).
Proof.
  assert (Hc : forall c0 : Check,
    CheckBody c0 header body
    = match snd (Open body) with
      | Some e =>
          ({| maddy_module.Reason := Some (exterrors.WithTemporary e
                (list_to_map [("check", "verify_dkim");
                              ("smtp_msg", "Internal I/O error")]) true);
              maddy_module.Reject := true;
              maddy_module.Quarantine := false;
              maddy_module.AuthResult := [] |}, [body_Open])
      | None =>
          ({| maddy_module.Reason := Some (exterrors.WithTemporary err
                (list_to_map
                   [("check", "verify_dkim");
                    ("smtp_msg", "Internal error during policy check")])
                true);
              maddy_module.Reject := true;
              maddy_module.Quarantine := false;
              maddy_module.AuthResult := [] |}, [body_Open; Verify])
      end).
  { intros c0. unfold CheckBody. rewrite Hhas. cbn [negb].
    unfold mbind, Traced_bind. cbn [emit fst snd mret Traced_ret].
    destruct (Open body) as [bodyRdr [e|]]; cbn [fst snd] in *;
      [reflexivity |].
    destruct Hfailure as [Hf | [_ Hf]]; [discriminate |].
    destruct (dkim_Verify _) as [verifications verr]. cbn in Hf. subst verr.
    reflexivity. }
  destruct Hfailure as [Hopen | [Hopen _]].
  - assert (Hc' := Hc). rewrite Hopen in Hc'. rewrite (Hc' c).
    cbn [fst snd maddy_module.Reject maddy_module.Quarantine
         maddy_module.AuthResult maddy_module.Reason].
    split; [done |]. split; [done |]. split; [done |].
    split; [eexists; split; [reflexivity | by vm_compute] |].
    split; [intros c'; by rewrite Hc' | done].
  - assert (Hc' := Hc). rewrite Hopen in Hc'. rewrite (Hc' c).
    cbn [fst snd maddy_module.Reject maddy_module.Quarantine
         maddy_module.AuthResult maddy_module.Reason].
    split; [done |]. split; [done |]. split; [done |].
    split; [eexists; split; [reflexivity | by vm_compute] |].
    split; [intros c'; by rewrite Hc' | intros ?; congruence].
Qed.

(** X17: What a run of [CheckBody] does: it writes log lines only, or opens
    the body once and stops, or opens the body once, then calls the
    verifier once, then writes log lines only.  The body is never
    opened twice, and the verifier never runs before the body is open
    or more than once. *)
Theorem CheckBody_effects (c : Check) (header : Header) (body : Buffer) :
  (exists logs,
     snd (CheckBody c header body) = logs /\ forallb is_log logs = true
     /\ length logs = 1%nat)
  \/ snd (CheckBody c header body) = [body_Open]
  \/ (exists logs,
        snd (CheckBody c header body) = body_Open :: Verify :: logs
        /\ forallb is_log logs = true).
Proof.
  unfold CheckBody.
  destruct (negb (Header_Has header "DKIM-Signature")).
  { left. unfold mbind, Traced_bind.
    destruct (_ || _); cbn; eexists; (split; [reflexivity | by split]). }
  right. unfold mbind, Traced_bind. cbn [emit fst snd mret Traced_ret].
  destruct (Open body) as [bodyRdr [err|]]; [by left |].
  right.
  destruct (dkim_Verify _) as [verifications [err|]]; [by exists [] |].
  pose proof (CheckBody_loop_logs c None verifications false
                maddy_module.zero) as Hlogs.
  destruct (CheckBody_loop c None verifications false maddy_module.zero)
    as [[early | [goodSigs res]] t]; cbn [fst snd] in *.
  - cbn. eexists. split; [reflexivity |]. by rewrite app_nil_r.
  - destruct (negb goodSigs); cbn; eexists;
      (split; [reflexivity |]); by rewrite app_nil_r.
Qed.

(** [strings.TrimPrefix] takes a prefix off. *)
Lemma strings_TrimPrefix_app (prefix s : string) :
  strings_TrimPrefix (prefix +:+ s) prefix = s.
Proof.
  unfold strings_TrimPrefix.
  assert (Hstrip : strip_prefix (prefix +:+ s) prefix = Some s).
  { induction prefix as [|ch prefix IH]; [by destruct s |].
    change (String ch prefix +:+ s) with (String ch (prefix +:+ s)).
    cbn. by rewrite Ascii.eqb_refl. }
  by rewrite Hstrip.
Qed.

(** X18: A signature whose verification failed, neither temporarily nor
    permanently, is recorded as fail, with the verifier's message
    without its "dkim: " prefix as the reason.  The records are those of
    the result returned or of the result handed to the broken-signature
    action. *)
Theorem CheckBody_failed_signature_record (c : Check) (header : Header)
    (body : Buffer) (bodyRdr : string)
    (verifications : list dkim.Verification) (verif : dkim.Verification)
    (message : string)
    (Hhas : Header_Has header "DKIM-Signature" = true)
    (Hopen : Open body = (bodyRdr, None))
    (Hverify : dkim_Verify (textproto_WriteHeader header +:+ bodyRdr)
               = (verifications, None))
    (Hopen_or_settled :
       failOpen c = true
       \/ Forall (fun v => failed_temporarily v = false) verifications)
    (Hin : In verif verifications)
    (Hfailed : dkim.Err verif = Some (dkim.failError message)) :
  exists res : maddy_module.CheckResult,
    (fst (CheckBody c header body) = res
     \/ fst (CheckBody c header body)
        = check.Apply (brokenSigAction c)
            (set_Reason res no_passing_signatures))
    /\ In {| Value := ResultFail; Reason := message;
             Domain := dkim.Domain verif;
             Identifier := dkim.Identifier verif |}
         (maddy_module.AuthResult res).
Proof.
  rewrite (CheckBody_verified c header body bodyRdr verifications
             Hhas Hopen Hverify).
  exists (add_records maddy_module.zero (map (record_of c) verifications)).
  split; [destruct (existsb verified verifications); auto |].
  cbn. apply in_map_iff. exists verif. split; [| done].
  unfold record_of. rewrite Hfailed. cbn [dkim.Error].
  by rewrite strings_TrimPrefix_app.
Qed.

End verify_dkim_more.

Section verify_dkim_more_examples.

Import authres verify_dkim check_run verdict_run dkim_example
  verdict_example.

(** Neither of the two signatures failed temporarily. *)
Lemma two_signatures_settled :
  Forall (fun v => failed_temporarily v = false) two_signatures.
Proof.
  unfold two_signatures. repeat constructor.
Qed.

(** The failed signature did not fail temporarily. *)
Lemma failed_signature_settled :
  Forall (fun v => failed_temporarily v = false) [failed_signature].
Proof.
  repeat constructor.
Qed.

(** The failed signature has an error. *)
Lemma failed_signature_failed :
  Forall (fun v => dkim.Err v <> None) [failed_signature].
Proof.
  repeat constructor. discriminate.
Qed.

(** From, Subject and Date cover the default required fields. *)
Lemma strict_covered :
  requiredFields (strict false)
    ⊆ @signedFields (lib (two_signatures, None))
        (verification ["from"; "subject"; "date"] (-1) None).
Proof.
  apply (bool_decide_unpack _). vm_compute. exact I.
Qed.

(** A signature over From, Subject and Date passes the gates of the
    default required fields; one over From and To does not. *)
Lemma valid_signature_record_witness :
  (exists (goodSigs' : bool) (r : DKIMResult),
     fst (@CheckBody_loop (lib ([], None)) (strict false) None
            [verification ["from"; "subject"; "date"] (-1) None]
            false maddy_module.zero)
     = inr (goodSigs', append_AuthResult maddy_module.zero r)
     /\ Value r = ResultPass)
  /\ (exists (goodSigs' : bool) (r : DKIMResult),
        fst (@CheckBody_loop (lib ([], None)) (strict false) None
               [verification ["from"; "to"] (-1) None]
               false maddy_module.zero)
        = inr (goodSigs', append_AuthResult maddy_module.zero r)
        /\ Value r = ResultPermError).
Proof.
  split.
  - destruct (@valid_signature_record (lib ([], None)) (strict false) None
                (verification ["from"; "subject"; "date"] (-1) None)
                false maddy_module.zero ["From"; "Subject"]
                eq_refl ltac:(vm_compute; reflexivity))
      as (g & r & Hrun & _ & _ & _ & Hpass).
    exists g, r. split; [exact Hrun |].
    apply Hpass. split; [| left; reflexivity].
    intros field [<- | [<- | []]]; [exists "from" | exists "subject"];
      (split; [cbn; tauto | reflexivity]).
  - destruct (@valid_signature_record (lib ([], None)) (strict false) None
                (verification ["from"; "to"] (-1) None)
                false maddy_module.zero ["From"; "Subject"]
                eq_refl ltac:(vm_compute; reflexivity))
      as (g & r & Hrun & _ & _ & [Hv | Hv] & Hpass).
    + exfalso. apply Hpass in Hv as [Hall _].
      destruct (Hall "Subject" ltac:(cbn; tauto)) as (key & Hkey & Hcanon).
      destruct Hkey as [<- | [<- | []]]; vm_compute in Hcanon;
        discriminate Hcanon.
    + exists g, r. exact (conj Hrun Hv).
Defined.

(** A message with a failed and a passing signature is accepted, with
    the pass on record. *)
Lemma CheckBody_accepts_passing_signature_witness :
  maddy_module.Reason
    (fst (@CheckBody (lib (two_signatures, None)) (strict false) signed body))
  = None
  /\ maddy_module.Reject
       (fst (@CheckBody (lib (two_signatures, None)) (strict false) signed
               body))
     = false
  /\ maddy_module.Quarantine
       (fst (@CheckBody (lib (two_signatures, None)) (strict false) signed
               body))
     = false
  /\ In {| Value := ResultPass; Reason := "";
           Domain := "example.org"; Identifier := "@example.org" |}
       (maddy_module.AuthResult
          (fst (@CheckBody (lib (two_signatures, None)) (strict false) signed
                  body))).
Proof.
  pose proof (@CheckBody_accepts_passing_signature
                (lib (two_signatures, None)) (strict false) signed body
                ("Hello." +:+ crlf) two_signatures
                (verification ["from"; "subject"; "date"] (-1) None)
                eq_refl eq_refl eq_refl
                (or_intror two_signatures_settled)
                (or_intror (or_introl eq_refl)) eq_refl strict_covered
                (or_introl eq_refl))
    as (Hreason & Hreject & Hquarantine & _ & _ & Hpass).
  exact (conj Hreason (conj Hreject (conj Hquarantine Hpass))).
Defined.

(** A message whose one signature failed goes to the broken-signature
    action. *)
Lemma CheckBody_no_verified_signature_witness :
  exists res : maddy_module.CheckResult,
    fst (@CheckBody (lib ([failed_signature], None)) (strict false) signed
           body)
    = check.Apply (brokenSigAction (strict false)) res
    /\ maddy_module.Reason res = Some no_passing_signatures
    /\ Forall (fun r => Value r <> ResultPass) (maddy_module.AuthResult res).
Proof.
  pose proof (@CheckBody_no_verified_signature
                (lib ([failed_signature], None)) (strict false) signed body
                ("Hello." +:+ crlf) [failed_signature]
                eq_refl eq_refl eq_refl
                (or_intror failed_signature_settled)
                failed_signature_failed)
    as (res & Hout & Hreason & _ & _ & _ & _ & Hnopass).
  exists res. exact (conj Hout (conj Hreason Hnopass)).
Defined.

(** A body that does not open, and a verifier that fails: both are
    rejected. *)
Lemma CheckBody_internal_failure_witness :
  let unreadable : Buffer :=
    {| Open := ("", Some (dkim.otherError "open: no such file")) |} in
  maddy_module.Reject
    (fst (@CheckBody (lib ([], None)) (strict true) signed unreadable)) = true
  /\ snd (@CheckBody (lib ([], None)) (strict true) signed unreadable)
     = [body_Open]
  /\ maddy_module.Reject
       (fst (@CheckBody
               (lib ([], Some (dkim.otherError "unexpected EOF")))
               (strict true) signed body)) = true.
Proof.
  intros unreadable.
  destruct (@CheckBody_internal_failure (lib ([], None)) (strict true)
              signed unreadable (dkim.otherError "open: no such file")
              eq_refl (or_introl eq_refl))
    as (Hreject & _ & _ & _ & _ & Htrace).
  destruct (@CheckBody_internal_failure
              (lib ([], Some (dkim.otherError "unexpected EOF")))
              (strict true) signed body (dkim.otherError "unexpected EOF")
              eq_refl (or_intror (conj eq_refl eq_refl)))
    as (Hreject' & _).
  split; [exact Hreject |]. split; [exact (Htrace eq_refl) | exact Hreject'].
Defined.

(** The body hash that did not verify is on record as fail, with the
    verifier's message. *)
Lemma CheckBody_failed_signature_record_witness :
  exists res : maddy_module.CheckResult,
    (fst (@CheckBody (lib ([failed_signature], None)) (strict false) signed
            body)
     = res
     \/ fst (@CheckBody (lib ([failed_signature], None)) (strict false) signed
               body)
        = check.Apply (brokenSigAction (strict false))
            (set_Reason res no_passing_signatures))
    /\ In {| Value := ResultFail; Reason := "body hash did not verify";
             Domain := dkim.Domain failed_signature;
             Identifier := dkim.Identifier failed_signature |}
         (maddy_module.AuthResult res).
Proof.
  exact (@CheckBody_failed_signature_record
           (lib ([failed_signature], None)) (strict false) signed body
           ("Hello." +:+ crlf) [failed_signature] failed_signature
           "body hash did not verify"
           eq_refl eq_refl eq_refl
           (or_intror failed_signature_settled)
           (or_introl eq_refl) eq_refl).
Defined.

End verify_dkim_more_examples.

(** ** The log of the check *)

Section verify_dkim_log.

Import authres verify_dkim check_run verdict_run verdict_log.

Context `{Lib}.

(** The log of the loop, for the nil error it runs with. *)
Lemma CheckBody_loop_log_lines (c : Check)
    (verifications : list dkim.Verification) :
  forall (goodSigs : bool) (res : maddy_module.CheckResult),
  snd (CheckBody_loop c None verifications goodSigs res)
  = flat_map (log_lines c) verifications.
Proof.
  induction verifications as [|verif rest IH]; intros goodSigs res;
    [reflexivity |].
  cbn [CheckBody_loop flat_map]. unfold mbind, Traced_bind.
  unfold log_lines at 1.
  destruct (dkim.Err verif) as [verif_Err|].
  - cbn [dkim.IsTempFail dkim.IsPermFail].
    destruct (check.Reject (brokenSigAction c)),
      (check.Quarantine (brokenSigAction c)); cbn [negb orb andb];
      cbn [fst snd emit mret Traced_ret];
      match goal with
      | |- context [CheckBody_loop _ _ ?l ?g ?r] =>
          specialize (IH g r); destruct (CheckBody_loop _ _ l g r)
      end; cbn [fst snd app] in *; by subst.
  - cbn [fst snd emit].
    destruct (set_fold _ _ _) as [val reason].
    destruct (if (0 <=? dkim.BodyLength verif) && negb (allowBodySubset c)
              then _ else _) as [val' reason'].
    match goal with
    | |- context [CheckBody_loop _ _ ?l ?g ?r] =>
        specialize (IH g r); destruct (CheckBody_loop _ _ l g r)
    end; cbn [fst snd app] in *; by subst.
Qed.

(** X19: The log of a signed message whose body opens and whose verification
    runs is written at debug level only: one "good signature" line for
    each verification without an error and one "bad signature" line for
    each with one, in the order of the verifications and with their
    domains and identifiers, except that a broken-signature action that
    both rejects and quarantines silences the "bad signature" lines.
    Stated for a check that fails open or a message none of whose
    signatures failed temporarily. *)
Theorem CheckBody_log_lines (c : Check) (header : Header) (body : Buffer)
    (bodyRdr : string) (verifications : list dkim.Verification)
    (Hhas : Header_Has header "DKIM-Signature" = true)
    (Hopen : Open body = (bodyRdr, None))
    (Hverify : dkim_Verify (textproto_WriteHeader header +:+ bodyRdr)
               = (verifications, None))
    (Hopen_or_settled :
       failOpen c = true
       \/ Forall (fun v => failed_temporarily v = false) verifications) :
  exists logs : list Event,
    snd (CheckBody c header body) = body_Open :: Verify :: logs
    /\ logs = flat_map (log_lines c) verifications
    /\ (length logs <= length verifications)%nat
    /\ (check.Reject (brokenSigAction c)
        && check.Quarantine (brokenSigAction c) = false ->
        logs
        = map (fun verif =>
                 log_DebugMsg
                   (if verified verif then "good signature"
                    else "bad signature")
                   [("domain", dkim.Domain verif);
                    ("identifier", dkim.Identifier verif)])
            verifications)
    /\ (check.Reject (brokenSigAction c)
        && check.Quarantine (brokenSigAction c) = true ->
        logs
        = map (fun verif =>
                 log_DebugMsg "good signature"
                   [("domain", dkim.Domain verif);
                    ("identifier", dkim.Identifier verif)])
            (filter (fun verif => verified verif = true) verifications)).
Proof.
  exists (flat_map (log_lines c) verifications).
  split; [| split; [done | split; [| split]]].
  - unfold CheckBody. rewrite Hhas. cbn [negb]. unfold mbind, Traced_bind.
    cbn [emit fst snd mret Traced_ret]. rewrite Hopen, Hverify.
    pose proof (CheckBody_loop_log_lines c verifications false
                  maddy_module.zero) as Hlog.
    destruct (CheckBody_loop c None verifications false maddy_module.zero)
      as [[early | [goodSigs res]] t]; cbn [fst snd] in *; subst t.
    + cbn. by rewrite app_nil_r.
    + destruct (negb goodSigs); cbn; by rewrite app_nil_r.
  - clear. induction verifications as [|verif rest IH]; [done |].
    cbn [flat_map]. rewrite length_app. cbn [length].
    assert (length (log_lines c verif) <= 1)%nat; [| lia].
    unfold log_lines. destruct (dkim.Err verif); [| done].
    destruct (_ && _); cbn; lia.
  - intros Hloud. clear -Hloud.
    induction verifications as [|verif rest IH]; [done |].
    cbn [flat_map map]. rewrite IH. unfold log_lines at 1.
    rewrite Hloud. unfold verified.
    destruct (dkim.Err verif); reflexivity.
  - intros Hsilent. clear -Hsilent.
    induction verifications as [|verif rest IH]; [done |].
    cbn [flat_map]. rewrite filter_cons, IH.
    unfold log_lines at 1. rewrite Hsilent.
    change (verified verif) with (match dkim.Err verif with
                                  | Some _ => false | None => true end).
    destruct (dkim.Err verif) as [verif_Err|].
    + by rewrite decide_False by done.
    + by rewrite decide_True by done.
Qed.

End verify_dkim_log.

Section verify_dkim_log_examples.

Import authres verify_dkim check_run verdict_run verdict_log dkim_example
  verdict_example.

(** The failed and the passing signature, each with its line. *)
Lemma CheckBody_log_lines_witness :
  snd (@CheckBody (lib (two_signatures, None)) (strict false) signed body)
  = [ body_Open; Verify;
      log_DebugMsg "bad signature"
        [("domain", "example.org"); ("identifier", "@example.org")];
      log_DebugMsg "good signature"
        [("domain", "example.org"); ("identifier", "@example.org")] ].
Proof.
  destruct (@CheckBody_log_lines (lib (two_signatures, None)) (strict false)
              signed body ("Hello." +:+ crlf) two_signatures
              eq_refl eq_refl eq_refl (or_intror two_signatures_settled))
    as (logs & Hrun & Hlogs & _).
  rewrite Hrun, Hlogs. reflexivity.
Defined.

End verify_dkim_log_examples.
